(** * jupyter-api-rs: the bootstrap script and the API probe script

    A shallow embedding of [src/start_jupyterlab.py] and [src/test.py].
    Both scripts are straight-line glue code around three kinds of effects:
    the file system (the credential file [.secret] and the [samples/]
    output directory), HTTP requests to the notebook server, and lines
    printed on standard output.  The effects are modelled by a state and
    exception monad over a [World] that holds the file system, the cookie
    jar of the [requests.Session] object and a chronological event log. *)

From Stdlib Require Import ZArith String Ascii List DecimalString.
From stdpp Require Import gmap strings list fin_maps.

Local Open Scope Z_scope.
Local Set Warnings "-register-all".

(** ** Python built-ins on [str] and [int] *)

(** [str(n)] for an [int]. *)
Definition str_of_int (n : Z) : string := NilZero.string_of_int (Z.to_int n).

(** [c.isspace()] for a character with code point below 256: TAB..CR,
    FS..US, SPACE, NEL and NBSP. *)
Definition isspace (c : ascii) : bool :=
  let n := N_of_ascii c in
  ((9 <=? n) && (n <=? 13) || (28 <=? n) && (n <=? 32) || (n =? 133) || (n =? 160))%N.

Fixpoint lstrip (s : string) : string :=
  match s with
  | EmptyString => EmptyString
  | String c r => if isspace c then lstrip r else s
  end.

Fixpoint rstrip (s : string) : string :=
  match s with
  | EmptyString => EmptyString
  | String c r =>
      match rstrip r with
      | EmptyString => if isspace c then EmptyString else String c EmptyString
      | r' => String c r'
      end
  end.

(** [s.strip()] *)
Definition strip (s : string) : string := rstrip (lstrip s).

(** No character of [s] is whitespace. *)
Fixpoint whitespace_free (s : string) : bool :=
  match s with
  | EmptyString => true
  | String c r => negb (isspace c) && whitespace_free r
  end.

(** Every character of [s] is whitespace. *)
Fixpoint all_space (s : string) : bool :=
  match s with
  | EmptyString => true
  | String c r => isspace c && all_space r
  end.

Definition first_char (s : string) : option ascii :=
  match s with
  | EmptyString => None
  | String c _ => Some c
  end.

Fixpoint last_char (s : string) : option ascii :=
  match s with
  | EmptyString => None
  | String c EmptyString => Some c
  | String _ r => last_char r
  end.

(** No character of [s] is a slash. *)
Fixpoint no_slash (s : string) : bool :=
  match s with
  | EmptyString => true
  | String c r => negb (Ascii.eqb c "/") && no_slash r
  end.

(** A name that is one path component: no slash, not empty, not [.]. *)
Definition plain_name (s : string) : bool :=
  no_slash s && negb (String.eqb s EmptyString) && negb (String.eqb s ".").

(** [s.startswith(p)] *)
Fixpoint startswith (p s : string) : bool :=
  match p, s with
  | EmptyString, _ => true
  | String a p', String b s' => Ascii.eqb a b && startswith p' s'
  | String _ _, EmptyString => false
  end.

(** [sep.join(l)] *)
Fixpoint join (sep : string) (l : list string) : string :=
  match l with
  | [] => EmptyString
  | [x] => x
  | x :: r => x +:+ sep +:+ join sep r
  end.

(** [s.split(sep)] for a one-character separator. *)
Fixpoint split_on (sep : ascii) (s : string) : list string :=
  match s with
  | EmptyString => [EmptyString]
  | String c r =>
      if Ascii.eqb c sep then EmptyString :: split_on sep r
      else match split_on sep r with
           | h :: t => String c h :: t
           | [] => [String c EmptyString]
           end
  end.

(** ** [pathlib] paths and file-system locations *)

(** A location is the list of names leading from the root of the file
    system to a file or directory. *)
Definition Location := list string.

(** A [pathlib.PurePath]: anchored at the root or relative. *)
Inductive PurePath :=
| Abs (names : list string)
| Rel (names : list string).

(** The names of a path string: empty components and [.] are dropped. *)
Definition names_of (s : string) : list string :=
  List.filter (fun c => negb (String.eqb c EmptyString || String.eqb c "."))
    (split_on "/" s).

(** [Path(s)] *)
Definition Path (s : string) : PurePath :=
  if startswith "/" s then Abs (names_of s) else Rel (names_of s).

(** [str(p)], which is what an f-string interpolates. *)
Definition Path_str (p : PurePath) : string :=
  match p with
  | Abs ns => "/" +:+ join "/" ns
  | Rel [] => "."
  | Rel ns => join "/" ns
  end.

(** [p / s]: an anchored right operand replaces the left one. *)
Definition truediv (p : PurePath) (s : string) : PurePath :=
  match Path s, p with
  | Abs ns, _ => Abs ns
  | Rel ns, Abs ms => Abs (ms ++ ns)
  | Rel ns, Rel ms => Rel (ms ++ ns)
  end.

(** How the operating system resolves a path given to [open]. *)
Definition locate (cwd : Location) (p : PurePath) : Location :=
  match p with
  | Abs ns => ns
  | Rel ns => cwd ++ ns
  end.

Definition parent (l : Location) : Location := removelast l.

(** ** The file system *)

Record mode := Mode { m_read : bool; m_write : bool }.

(** Mode of a file created by [open(..., "w")]. *)
Definition default_mode : mode := Mode true true.

(** A directory (with its write permission) or a regular file holding the
    text that [read()] returns. *)
Inductive node :=
| Dir (writable : bool)
| File (m : mode) (data : string).

(** ** Exceptions, events and the world *)

Inductive exn :=
| FileNotFoundError (l : Location)
| PermissionError (l : Location)
| IsADirectoryError (l : Location)
| NotADirectoryError (l : Location)
| ConnectionError (url : string)
| JSONDecodeError (msg : string).

Record Request := mkRequest {
  req_method : string;
  req_url : string;
  req_headers : list (string * string);
  req_cookies : list (string * string)
}.

Record Response := mkResponse {
  status_code : Z;
  text : string;
  cookies : list (string * string)
}.

Inductive event :=
| EvRequest (r : Request)
| EvPrint (line : string)
| EvWrite (l : Location) (data : string).

Record World := mkWorld {
  w_fs : gmap Location node;
  w_jar : list (string * string);
  w_log : list event
}.

Definition set_fs (fs : gmap Location node) (w : World) : World :=
  mkWorld fs (w_jar w) (w_log w).

Definition set_jar (jar : list (string * string)) (w : World) : World :=
  mkWorld (w_fs w) jar (w_log w).

Definition log_event (ev : event) (w : World) : World :=
  mkWorld (w_fs w) (w_jar w) (w_log w ++ [ev]).

(** What the claims say about a request: its method and its URL. *)
Definition method_url (r : Request) : string * string := (req_method r, req_url r).

(** The requests of a log, oldest first. *)
Definition requests_of (log : list event) : list Request :=
  omap (fun ev => match ev with EvRequest r => Some r | _ => None end) log.

(** The locations written to, oldest first. *)
Definition written_of (log : list event) : list Location :=
  omap (fun ev => match ev with EvWrite l _ => Some l | _ => None end) log.

(** The lines printed, oldest first. *)
Definition printed_of (log : list event) : list string :=
  omap (fun ev => match ev with EvPrint s => Some s | _ => None end) log.

(** ** The monad of scripts: state plus exceptions *)

Inductive result (A : Type) :=
| Return (a : A)
| Raise (e : exn).
Arguments Return {A} a.
Arguments Raise {A} e.

Definition M (A : Type) : Type := World -> result A * World.

Definition ret {A} (a : A) : M A := fun w => (Return a, w).

Definition raise {A} (e : exn) : M A := fun w => (Raise e, w).

Definition bind {A B} (m : M A) (k : A -> M B) : M B :=
  fun w =>
    match m w with
    | (Return a, w') => k a w'
    | (Raise e, w') => (Raise e, w')
    end.

Notation "x <- m ;; k" := (bind m (fun x => k))
  (at level 100, m at next level, right associativity).
Notation "m ;;; k" := (bind m (fun _ => k))
  (at level 100, right associativity).

(** [try: body except ...: handler], where [handler e = None] means that no
    [except] clause matches [e]. *)
Definition try_except {A} (body : M A) (handler : exn -> option (M A)) : M A :=
  fun w =>
    match body w with
    | (Return a, w') => (Return a, w')
    | (Raise e, w') =>
        match handler e with
        | Some h => h w'
        | None => (Raise e, w')
        end
    end.

(** [for x in l: body x] *)
Fixpoint for_ {A} (l : list A) (body : A -> M unit) : M unit :=
  match l with
  | [] => ret tt
  | x :: r => body x ;;; for_ r body
  end.

(** A computation replays over [fs'] from [w] when it does over [fs'] what
    it did over the file system of [w], and leaves [fs'] as it is. *)
Definition replays {A} (m : M A) (w : World) (fs' : gmap Location node) : Prop :=
  m (set_fs fs' w) = (fst (m w), set_fs fs' (snd (m w))).

(** [print(line)] *)
Definition print (line : string) : M unit :=
  fun w => (Return tt, log_event (EvPrint line) w).

(** ** Files *)

(** What [open(l, "w")] finds: the exception it raises, or the mode of the
    file it opens (an existing file keeps its mode). *)
Definition open_w_check (fs : gmap Location node) (l : Location) : exn + mode :=
  match fs !! l with
  | Some (Dir _) => inl (IsADirectoryError l)
  | Some (File m _) => if m_write m then inr m else inl (PermissionError l)
  | None =>
      match fs !! parent l with
      | Some (Dir true) => inr default_mode
      | Some (Dir false) => inl (PermissionError l)
      | Some (File _ _) => inl (NotADirectoryError l)
      | None => inl (FileNotFoundError l)
      end
  end.

(** [open(p, "w")]: creates or truncates the file; the handle is the
    location. *)
Definition open_w (cwd : Location) (p : PurePath) : M Location :=
  fun w =>
    let l := locate cwd p in
    match open_w_check (w_fs w) l with
    | inl e => (Raise e, w)
    | inr m => (Return l, set_fs (<[l := File m EmptyString]> (w_fs w)) w)
    end.

(** [f.write(s)] on a handle returned by [open_w]: appends at the end. *)
Definition file_write (f : Location) (s : string) : M unit :=
  fun w =>
    match w_fs w !! f with
    | Some (File m old) =>
        (Return tt, log_event (EvWrite f s) (set_fs (<[f := File m (old +:+ s)]> (w_fs w)) w))
    | _ => (Return tt, w)
    end.

(** What [open(l, "r")] finds. *)
Definition open_r_check (fs : gmap Location node) (l : Location) : exn + string :=
  match fs !! l with
  | None => inl (FileNotFoundError l)
  | Some (Dir _) => inl (IsADirectoryError l)
  | Some (File m data) => if m_read m then inr data else inl (PermissionError l)
  end.

(** [open(p, "r")] followed by [f.read()]. *)
Definition read_text (cwd : Location) (p : PurePath) : M string :=
  fun w =>
    match open_r_check (w_fs w) (locate cwd p) with
    | inl e => (Raise e, w)
    | inr data => (Return data, w)
    end.

(** [with open(p, "w") as f: f.write(s)] *)
Definition write_text (cwd : Location) (p : PurePath) (s : string) : M unit :=
  f <- open_w cwd p ;;
  file_write f s.

(** The file at [l] can be read. *)
Definition readable (fs : gmap Location node) (l : Location) : bool :=
  match open_r_check fs l with
  | inr _ => true
  | inl _ => false
  end.

(** The file at [l] can be opened for writing. *)
Definition writable (fs : gmap Location node) (l : Location) : bool :=
  match open_w_check fs l with
  | inr _ => true
  | inl _ => false
  end.

(** The locations written to between the worlds [w] and [w']. *)
Definition writes_since (w w' : World) : list Location :=
  drop (length (written_of (w_log w))) (written_of (w_log w')).

(** What a script that only writes files does to a location: it leaves it
    as it is, creates a file there, or rewrites a file and keeps its mode. *)
Definition kept_or_written (fs fs' : gmap Location node) (l : Location) : Prop :=
  fs' !! l = fs !! l
  \/ exists m d, fs' !! l = Some (File m d)
                 /\ (fs !! l = None \/ exists d0, fs !! l = Some (File m d0)).

(** ** URLs *)

(** The part of [s] after the first occurrence of [c], if there is one. *)
Fixpoint after_first (c : ascii) (s : string) : option string :=
  match s with
  | EmptyString => None
  | String a r => if Ascii.eqb a c then Some r else after_first c r
  end.

(** The part of [s] before the first occurrence of [c] (all of [s] if
    there is none). *)
Fixpoint before_first (c : ascii) (s : string) : string :=
  match s with
  | EmptyString => EmptyString
  | String a r => if Ascii.eqb a c then EmptyString else String a (before_first c r)
  end.

(** The query parameters of a URL: what follows the first [?], cut at [&],
    each piece cut at its first [=]. *)
Definition query_params (url : string) : list (string * string) :=
  match after_first "?" url with
  | None => []
  | Some q =>
      List.map (fun kv => (before_first "=" kv, default EmptyString (after_first "=" kv)))
        (split_on "&" (before_first "#" q))
  end.

(** The value of the first query parameter called [name]. *)
Definition query_param (name url : string) : option string :=
  snd <$> List.find (fun kv => String.eqb (fst kv) name) (query_params url).

(** What follows [scheme://] in a URL. *)
Fixpoint after_scheme (url : string) : string :=
  match url with
  | String ":" (String "/" (String "/" r)) => r
  | String _ r => after_scheme r
  | EmptyString => EmptyString
  end.

(** The path (with the query) of a URL: from the first [/] after the
    authority. *)
Definition url_path (url : string) : string :=
  match after_first "/" (after_scheme url) with
  | Some r => String "/" r
  | None => EmptyString
  end.

(** The path of the URL starts with two slashes. *)
Definition double_slash (url : string) : bool := startswith "//" (url_path url).

(** ** The environment of the scripts

    Everything the scripts use and the repository does not contain: the
    JSON codec of the Python library, the notebook server, the directory
    that holds the two scripts and the working directory of the process. *)
Class Env := {
  (** parsed JSON documents *)
  JSON : Type;
  (** [json.loads]: the document, or the message of the [JSONDecodeError] *)
  json_loads : string -> JSON + string;
  (** [json.dumps(data, indent=n)] *)
  json_dumps : JSON -> nat -> string;
  (** The final response of the server to a request, given the requests
      already sent in this run; [None] is a transport failure. *)
  server : list Request -> Request -> option Response;
  (** [Path(__file__).parent], as a location *)
  script_dir : Location;
  (** the working directory of the process *)
  cwd : Location
}.

(** ** [requests] *)

Section requests.
Context {E : Env}.

(** One request on the wire. *)
Definition send (r : Request) : M Response :=
  fun w =>
    let w1 := log_event (EvRequest r) w in
    match server (requests_of (w_log w)) r with
    | Some resp => (Return resp, w1)
    | None => (Raise (ConnectionError (req_url r)), w1)
    end.

(** A cookie jar maps names to values; a response cookie replaces the one
    of the same name. *)
Fixpoint set_cookie (k v : string) (jar : list (string * string)) : list (string * string) :=
  match jar with
  | [] => [(k, v)]
  | (k', v') :: r => if String.eqb k k' then (k, v) :: r else (k', v') :: set_cookie k v r
  end.

Definition jar_update (jar cs : list (string * string)) : list (string * string) :=
  fold_left (fun j kv => set_cookie (fst kv) (snd kv) j) cs jar.

(** [client = requests.Session()] *)
Definition Session : M unit := fun w => (Return tt, set_jar [] w).

(** [client.get(url)]: sends the cookies of the jar and keeps the cookies
    of the response. *)
Definition Session_get (url : string) : M Response :=
  fun w =>
    match send (mkRequest "GET" url [] (w_jar w)) w with
    | (Return resp, w1) => (Return resp, set_jar (jar_update (w_jar w1) (cookies resp)) w1)
    | (Raise e, w1) => (Raise e, w1)
    end.

(** [requests.get(url, headers=headers)]: a session of its own, no cookies. *)
Definition requests_get (url : string) (headers : list (string * string)) : M Response :=
  send (mkRequest "GET" url headers []).


(** [resp.json()] *)
Definition Response_json (resp : Response) : M JSON :=
  match json_loads (text resp) with
  | inl data => ret data
  | inr msg => raise (JSONDecodeError msg)
  end.

(** [json.dump(data, f, indent=indent)] *)
Definition json_dump (data : JSON) (f : Location) (indent : nat) : M unit :=
  file_write f (json_dumps data indent).

End requests.

(** ** [src/start_jupyterlab.py] *)

Module start_jupyterlab.
Section script.
Context {E : Env}.

(** line 4 *)
Definition workspace_dir : PurePath := Abs script_dir.

(** Lines 10-11, for the token of the application that lines 6-9
    initialise.  Line 12 starts the server and does not return. *)
Definition write_secret (app_token : string) : M unit :=
  write_text cwd (truediv workspace_dir ".secret") app_token.

End script.
End start_jupyterlab.

(** ** [src/test.py] *)

(** [range(n)] *)
Record range := Range { start : Z; stop : Z }.
Definition range_ (n : Z) : range := Range 0 n.

Module test_py.
Section script.
Context {E : Env}.

(** line 6 *)
Definition workspace_dir : PurePath := Abs script_dir.

(** line 9 *)
Definition lab_url : string := "http://localhost:8888/".

(** lines 10-11 *)
Definition token : M string :=
  s <- read_text cwd (Path ".secret") ;;
  ret (strip s).

(** lines 14-16 *)
Definition client (token : string) : M unit :=
  Session ;;;
  resp <- Session_get (lab_url +:+ "?token=" +:+ token) ;;
  ret tt.

(** lines 19-28 *)
Definition try_save (resp : Response) (filename : PurePath) : M unit :=
  if status_code resp =? 200 then
    try_except
      (data <- Response_json resp ;;
       f <- open_w cwd (truediv workspace_dir ("samples/" +:+ Path_str filename +:+ ".json")) ;;
       json_dump data f 2)
      (fun e =>
         match e with
         | JSONDecodeError msg => Some (print ("JSON decode error: " +:+ msg))
         | _ => None
         end)
  else print ("Error: " +:+ str_of_int (status_code resp)).

(** The file that [try_save] opens for [filename] (line 23). *)
Definition sample_file (filename : PurePath) : Location :=
  locate cwd (truediv workspace_dir ("samples/" +:+ Path_str filename +:+ ".json")).

(** The credential file that line 10 opens. *)
Definition secret_file : Location := locate cwd (Path ".secret").

(** lines 31-32 *)
Definition probe_root : M unit :=
  resp <- Session_get (lab_url +:+ "/api/") ;;
  try_save resp (Path "[GET]__root").

(** lines 35-36 *)
Definition probe_workspaces : M unit :=
  resp <- Session_get (lab_url +:+ "/lab/api/workspaces") ;;
  try_save resp (Path "[GET]lab__workspaces").

(** line 39 *)
Definition api_names : list string :=
  ["sessions"; "kernels"; "contents"; "terminals"; "kernelspecs"; "status"; "me"].

(** lines 39-41 *)
Definition probe_api : M unit :=
  for_ api_names (fun i =>
    resp <- Session_get (lab_url +:+ "/api/" +:+ i) ;;
    try_save resp (Path ("[GET]" +:+ i))).

(** lines 45-49; the value of the last expression is returned. *)
Definition byte_range_probe (token : string) : M string :=
  let byte_range := range_ 2 in
  resp <- requests_get (lab_url +:+ "/files/hello.txt?token=" +:+ token)
            [("Range", "bytes=" +:+ str_of_int (start byte_range) +:+ "-"
                         +:+ str_of_int (stop byte_range - 1))] ;;
  ret (text resp).

(** The whole script, cell after cell. *)
Definition main : M string :=
  tok <- token ;;
  client tok ;;;
  probe_root ;;;
  probe_workspaces ;;;
  probe_api ;;;
  byte_range_probe tok.

(** One probe of the persistence loop: the pattern of lines 31-32, 35-36
    and 40-41. *)
Definition probe (route label : string) : M unit :=
  resp <- Session_get (lab_url +:+ route) ;;
  try_save resp (Path label).

(** The routes and labels of lines 31-41, in the order of the script. *)
Definition probes : list (string * string) :=
  [("/api/", "[GET]__root"); ("/lab/api/workspaces", "[GET]lab__workspaces")]
  ++ List.map (fun i => ("/api/" +:+ i, "[GET]" +:+ i)) api_names.

(** Lines 31-41 as one loop over [probes]. *)
Definition persistence_loop : M unit :=
  for_ probes (fun p => probe (fst p) (snd p)).

(** The method and URL of every request of a complete run that read the
    token [tok]. *)
Definition expected_requests (tok : string) : list (string * string) :=
  [("GET", lab_url +:+ "?token=" +:+ tok)]
  ++ List.map (fun p => ("GET", lab_url +:+ fst p)) probes
  ++ [("GET", lab_url +:+ "/files/hello.txt?token=" +:+ tok)].

(** A run of the script in a fresh process over the file system [fs]. *)
Definition run (fs : gmap Location node) : result string * World :=
  main (mkWorld fs [] []).

End script.
End test_py.

(** ** A JSON codec for concrete runs

    The theorems below hold for every codec.  To run the scripts on concrete
    responses, this module gives the codec of the Python library on a
    fragment of JSON: [null], booleans, integers, strings without escapes,
    arrays and objects.  [Json.dumps] lays a document out as
    [json.dumps(data, indent=n)] does. *)
Module Json.

Inductive value :=
| Null
| Bool (b : bool)
| Int (n : Z)
| Str (s : string)
| Arr (items : list value)
| Obj (members : list (string * value)).

Definition dquote : string := String (ascii_of_nat 34) EmptyString.
Definition backslash : string := String (ascii_of_nat 92) EmptyString.
Definition newline : string := String (ascii_of_nat 10) EmptyString.

Definition hex_digit (n : N) : ascii :=
  ascii_of_N (if (n <? 10)%N then 48 + n else 87 + n)%N.

(** One character of a string as [json.dumps] writes it (with
    [ensure_ascii]). *)
Definition escape_char (c : ascii) : string :=
  let n := N_of_ascii c in
  if (n =? 34)%N then backslash +:+ dquote
  else if (n =? 92)%N then backslash +:+ backslash
  else if (n =? 10)%N then backslash +:+ "n"
  else if (n =? 13)%N then backslash +:+ "r"
  else if (n =? 9)%N then backslash +:+ "t"
  else if (n =? 8)%N then backslash +:+ "b"
  else if (n =? 12)%N then backslash +:+ "f"
  else if ((32 <=? n) && (n <=? 126))%N then String c EmptyString
  else backslash +:+ "u00" +:+ String (hex_digit (n / 16)) (String (hex_digit (n mod 16)) EmptyString).

Fixpoint escape (s : string) : string :=
  match s with
  | EmptyString => EmptyString
  | String c r => escape_char c +:+ escape r
  end.

Definition quote (s : string) : string := dquote +:+ escape s +:+ dquote.

Fixpoint spaces (n : nat) : string :=
  match n with
  | O => EmptyString
  | S k => String " " (spaces k)
  end.

(** A line break followed by the indentation of nesting depth [level]. *)
Definition break (indent level : nat) : string := newline +:+ spaces (indent * level).

Fixpoint dumps_at (indent level : nat) (v : value) : string :=
  match v with
  | Null => "null"
  | Bool true => "true"
  | Bool false => "false"
  | Int n => str_of_int n
  | Str s => quote s
  | Arr [] => "[]"
  | Arr items =>
      "[" +:+ break indent (S level)
      +:+ join ("," +:+ break indent (S level)) (List.map (dumps_at indent (S level)) items)
      +:+ break indent level +:+ "]"
  | Obj [] => "{}"
  | Obj members =>
      "{" +:+ break indent (S level)
      +:+ join ("," +:+ break indent (S level))
            (List.map (fun kv => quote (fst kv) +:+ ": " +:+ dumps_at indent (S level) (snd kv)) members)
      +:+ break indent level +:+ "}"
  end.

Definition dumps (v : value) (indent : nat) : string := dumps_at indent 0 v.

(** *** Decoding *)

Definition is_ws (c : ascii) : bool :=
  let n := N_of_ascii c in ((n =? 32) || (n =? 9) || (n =? 10) || (n =? 13))%N.

Fixpoint skip_ws (s : string) : string :=
  match s with
  | String c r => if is_ws c then skip_ws r else s
  | EmptyString => EmptyString
  end.

Definition is_digit (c : ascii) : bool :=
  let n := N_of_ascii c in ((48 <=? n) && (n <=? 57))%N.

(** The digits at the front of [s], as a number, and the rest. *)
Fixpoint digits (acc : Z) (s : string) : Z * string :=
  match s with
  | String c r =>
      if is_digit c then digits (10 * acc + (Z.of_N (N_of_ascii c) - 48)) r else (acc, s)
  | EmptyString => (acc, s)
  end.

(** The literal [lit] at the front of [s]: the rest of [s]. *)
Fixpoint literal (lit s : string) : option string :=
  match lit, s with
  | EmptyString, _ => Some s
  | String a l, String b r => if Ascii.eqb a b then literal l r else None
  | String _ _, EmptyString => None
  end.

(** An integer (an optional minus sign, then 0 or digits that do not start
    with 0) that no fraction or exponent follows. *)
Definition integer (s : string) : option (Z * string) :=
  let '(neg, s1) := match s with
                    | String "-" r => (true, r)
                    | _ => (false, s)
                    end in
  match s1 with
  | String c r =>
      if is_digit c then
        let '(n, rest) := if Ascii.eqb c "0" then (0, r) else digits 0 s1 in
        match rest with
        | String "." _ | String "e" _ | String "E" _ => None
        | _ => Some (if neg then - n else n, rest)
        end
      else None
  | EmptyString => None
  end.

(** The characters of a string up to its closing quote; escapes and
    control characters are outside the fragment. *)
Fixpoint string_body (s : string) : option (string * string) :=
  match s with
  | EmptyString => None
  | String c r =>
      let n := N_of_ascii c in
      if (n =? 34)%N then Some (EmptyString, r)
      else if ((n =? 92) || (n <? 32))%N then None
      else match string_body r with
           | Some (body, rest) => Some (String c body, rest)
           | None => None
           end
  end.

(** [d[k] = v] on a dictionary that keeps insertion order. *)
Fixpoint dict_set (k : string) (v : value) (d : list (string * value)) : list (string * value) :=
  match d with
  | [] => [(k, v)]
  | (k', v') :: r => if String.eqb k k' then (k, v) :: r else (k', v') :: dict_set k v r
  end.

Fixpoint parse_value (fuel : nat) (s : string) : option (value * string) :=
  match fuel with
  | O => None
  | S fuel =>
      match s with
      | String "n" _ => (fun r => (Null, r)) <$> literal "null" s
      | String "t" _ => (fun r => (Bool true, r)) <$> literal "true" s
      | String "f" _ => (fun r => (Bool false, r)) <$> literal "false" s
      | String "[" r =>
          match skip_ws r with
          | String "]" r' => Some (Arr [], r')
          | r' => (fun x => (Arr (fst x), snd x)) <$> parse_items fuel r'
          end
      | String "{" r =>
          match skip_ws r with
          | String "}" r' => Some (Obj [], r')
          | r' => (fun x => (Obj (fst x), snd x)) <$> parse_members fuel [] r'
          end
      | String c r =>
          if (N_of_ascii c =? 34)%N then (fun x => (Str (fst x), snd x)) <$> string_body r
          else (fun x => (Int (fst x), snd x)) <$> integer s
      | EmptyString => None
      end
  end
with parse_items (fuel : nat) (s : string) : option (list value * string) :=
  match fuel with
  | O => None
  | S fuel =>
      match parse_value fuel s with
      | None => None
      | Some (v, r) =>
          match skip_ws r with
          | String "]" r' => Some ([v], r')
          | String "," r' =>
              (fun x => (v :: fst x, snd x)) <$> parse_items fuel (skip_ws r')
          | _ => None
          end
      end
  end
with parse_members (fuel : nat) (acc : list (string * value)) (s : string)
  : option (list (string * value) * string) :=
  match fuel with
  | O => None
  | S fuel =>
      match s with
      | String q r =>
          if (N_of_ascii q =? 34)%N then
            match string_body r with
            | None => None
            | Some (k, r1) =>
                match skip_ws r1 with
                | String ":" r2 =>
                    match parse_value fuel (skip_ws r2) with
                    | None => None
                    | Some (v, r3) =>
                        match skip_ws r3 with
                        | String "}" r4 => Some (dict_set k v acc, r4)
                        | String "," r4 => parse_members fuel (dict_set k v acc) (skip_ws r4)
                        | _ => None
                        end
                    end
                | _ => None
                end
            end
          else None
      | EmptyString => None
      end
  end.

(** A whole document: one value, whitespace around it, nothing else. *)
Definition parse (s : string) : option value :=
  match parse_value (2 * String.length s + 2) (skip_ws s) with
  | Some (v, r) => match skip_ws r with EmptyString => Some v | _ => None end
  | None => None
  end.

(** [json.loads] on the fragment.  The message is the one of a document
    that does not start with a JSON value. *)
Definition loads (s : string) : value + string :=
  match parse s with
  | Some v => inl v
  | None => inr "Expecting value: line 1 column 1 (char 0)"
  end.

End Json.

(** ** Readings of the specification that the code is compared with *)

(** The success range of HTTP status codes. *)
Definition spec_status_success (code : Z) : bool := (200 <=? code) && (code <? 300).

(** The persistence policy in the words of the specification: a file is
    written exactly when the status indicates success and the body parses. *)
Definition persistence_as_stated `{Env} (resp : Response) (filename : PurePath)
    (w : World) : Prop :=
  writes_since w (snd (test_py.try_save resp filename w)) <> []
  <-> spec_status_success (status_code resp) = true
      /\ exists data, json_loads (text resp) = inl data.

(** The name the specification gives to the failure to open the credential
    file [l]. *)
Definition MissingCredentialError (l : Location) (e : exn) : Prop :=
  e = FileNotFoundError l \/ e = PermissionError l \/ e = IsADirectoryError l.

(** ** A concrete environment: a mock server and a small file system *)

Module Demo.

Definition dir : Location := ["home"; "user"; "jupyter-api-rs"].

(** A server that sets a cookie on the first page, answers most routes with
    a JSON document, one route with plain text and one with 404. *)
Definition mock_server (history : list Request) (r : Request) : option Response :=
  let url := req_url r in
  if startswith "http://localhost:8888/?token=" url then
    Some (mkResponse 200 "<html></html>" [("_xsrf", "2|d8a1")])
  else if String.eqb url "http://localhost:8888//api/status" then
    Some (mkResponse 200 "not json" [])
  else if String.eqb url "http://localhost:8888//api/me" then
    Some (mkResponse 404 "Not Found" [])
  else if startswith "http://localhost:8888//files/" url then
    Some (mkResponse 206 "he" [])
  else if String.eqb url "http://localhost:8888//api/" then
    Some (mkResponse 200 (Json.dumps (Json.Obj [("version", Json.Str "2.14.2")]) 0) [])
  else
    Some (mkResponse 200 "[]" []).

Definition env : Env := {|
  JSON := Json.value;
  json_loads := Json.loads;
  json_dumps := Json.dumps;
  server := mock_server;
  script_dir := dir;
  cwd := dir
|}.

(** The same scripts started from the home directory. *)
Definition env_elsewhere : Env := {|
  JSON := Json.value;
  json_loads := Json.loads;
  json_dumps := Json.dumps;
  server := mock_server;
  script_dir := dir;
  cwd := ["home"; "user"]
|}.

(** The token file as the bootstrap leaves it, followed by a line break. *)
Definition secret_text : string := "c0ffee42" +:+ Json.newline.

(** The repository with its [samples] directory ... *)
Definition fs : gmap Location node :=
  <[dir ++ ["samples"] := Dir true]>
  (<[dir ++ [".secret"] := File default_mode secret_text]>
  (<[dir := Dir true]> ∅)).

(** ... and without it. *)
Definition fs_no_samples : gmap Location node :=
  <[dir ++ [".secret"] := File default_mode secret_text]>
  (<[dir := Dir true]> ∅).

(** A fresh checkout: no token file yet. *)
Definition fs_fresh : gmap Location node :=
  <[dir ++ ["samples"] := Dir true]> (<[dir := Dir true]> ∅).

Definition world (fs : gmap Location node) : World := mkWorld fs [] [].

(** The sample file of the root info probe. *)
Definition root_file : Location := dir ++ ["samples"; "[GET]__root.json"].

End Demo.

(** * Properties *)

(** ** Strings *)

Lemma rstrip_whitespace_free (s : string) :
  whitespace_free s = true -> rstrip s = s.
Proof.
  induction s as [|c r IH]; simpl; [done|].
  intros [Hc Hr]%andb_prop. rewrite (IH Hr).
  destruct r; [|done].
  by destruct (isspace c).
Qed.

Lemma lstrip_whitespace_free (s : string) :
  whitespace_free s = true -> lstrip s = s.
Proof.
  destruct s as [|c r]; simpl; [done|].
  intros [Hc _]%andb_prop. by destruct (isspace c).
Qed.

Lemma strip_whitespace_free (s : string) :
  whitespace_free s = true -> strip s = s.
Proof.
  intros H. unfold strip.
  rewrite (lstrip_whitespace_free s H). by apply rstrip_whitespace_free.
Qed.

(** ** Files *)

(** [open] for writing raises one of four exceptions, none of them a
    decode error. *)
Lemma open_w_check_exn (fs : gmap Location node) (l : Location) (e : exn) :
  open_w_check fs l = inl e ->
  e = FileNotFoundError l \/ e = PermissionError l
  \/ e = IsADirectoryError l \/ e = NotADirectoryError l.
Proof.
  unfold open_w_check. intros H.
  destruct (fs !! l) as [[b|m d]|].
  - inversion H; auto.
  - destruct (m_write m); inversion H; auto.
  - destruct (fs !! parent l) as [[[|]|m d]|]; inversion H; auto.
Qed.

(** A file opened for writing is writable afterwards, whatever it holds. *)
Lemma open_w_check_again (fs : gmap Location node) (l : Location) (m : mode) (d : string) :
  open_w_check fs l = inr m ->
  open_w_check (<[l := File m d]> fs) l = inr m.
Proof.
  unfold open_w_check. intros H. rewrite lookup_insert_eq.
  destruct (fs !! l) as [[b|m' d']|].
  - discriminate.
  - destruct (m_write m') eqn:Hw; inversion H; subst. by rewrite Hw.
  - destruct (fs !! parent l) as [[[|]|m' d']|]; inversion H. done.
Qed.



(** ** The monad and its operations *)

Lemma bind_ret {A B} (a : A) (k : A -> M B) (w : World) :
  bind (ret a) k w = k a w.
Proof. reflexivity. Qed.

Lemma bind_Return {A B} (m : M A) (k : A -> M B) (w w' : World) (a : A) :
  m w = (Return a, w') -> bind m k w = k a w'.
Proof. unfold bind. by intros ->. Qed.

Lemma bind_Raise {A B} (m : M A) (k : A -> M B) (w w' : World) (e : exn) :
  m w = (Raise e, w') -> bind m k w = (Raise e, w').
Proof. unfold bind. by intros ->. Qed.

Lemma bind_assoc {A B C} (m : M A) (f : A -> M B) (g : B -> M C) (w : World) :
  bind (bind m f) g w = bind m (fun a => bind (f a) g) w.
Proof. unfold bind. by destruct (m w) as [[a|e] w']. Qed.

Lemma bind_congr {A B} (m : M A) (k1 k2 : A -> M B) (w : World) :
  (forall a w', k1 a w' = k2 a w') -> bind m k1 w = bind m k2 w.
Proof. intros H. unfold bind. by destruct (m w) as [[a|e] w']. Qed.

Lemma open_w_ok (cwd : Location) (p : PurePath) (w : World) (m : mode) :
  open_w_check (w_fs w) (locate cwd p) = inr m ->
  open_w cwd p w
  = (Return (locate cwd p), set_fs (<[locate cwd p := File m EmptyString]> (w_fs w)) w).
Proof. unfold open_w. by intros ->. Qed.

Lemma open_w_error (cwd : Location) (p : PurePath) (w : World) (e : exn) :
  open_w_check (w_fs w) (locate cwd p) = inl e ->
  open_w cwd p w = (Raise e, w).
Proof. unfold open_w. by intros ->. Qed.

(** The first write after [open] fills the truncated file. *)
Lemma file_write_opened (l : Location) (m : mode) (s : string)
    (fs : gmap Location node) (w : World) :
  file_write l s (set_fs (<[l := File m EmptyString]> fs) w)
  = (Return tt, log_event (EvWrite l s) (set_fs (<[l := File m s]> fs) w)).
Proof.
  unfold file_write, set_fs, log_event. cbn [w_fs w_jar w_log].
  rewrite lookup_insert_eq. by rewrite insert_insert_eq.
Qed.

Lemma write_text_ok (cwd : Location) (p : PurePath) (s : string) (w : World) (m : mode) :
  open_w_check (w_fs w) (locate cwd p) = inr m ->
  write_text cwd p s w
  = (Return tt,
     log_event (EvWrite (locate cwd p) s)
       (set_fs (<[locate cwd p := File m s]> (w_fs w)) w)).
Proof.
  intros H. unfold write_text.
  rewrite (bind_Return _ _ _ _ _ (open_w_ok _ _ _ _ H)).
  apply file_write_opened.
Qed.

Lemma write_text_error (cwd : Location) (p : PurePath) (s : string) (w : World) (e : exn) :
  open_w_check (w_fs w) (locate cwd p) = inl e ->
  write_text cwd p s w = (Raise e, w).
Proof.
  intros H. unfold write_text.
  by rewrite (bind_Raise _ _ _ _ _ (open_w_error _ _ _ _ H)).
Qed.

(** ** The persistence step *)

Section try_save_cases.
Context {E : Env}.
Import test_py.

Lemma sample_file_names (filename : PurePath) :
  sample_file filename
  = script_dir ++ names_of ("samples/" +:+ Path_str filename +:+ ".json").
Proof. reflexivity. Qed.

Lemma secret_file_names : secret_file = cwd ++ [".secret"].
Proof. reflexivity. Qed.

(** The nine labels of the script name nine files of [samples]. *)
Lemma sample_file_label (route label : string) :
  (route, label) ∈ probes ->
  sample_file (Path label) = script_dir ++ ["samples"; label +:+ ".json"].
Proof.
  intros H. unfold probes, api_names in H. cbn in H.
  repeat (apply elem_of_cons in H as [H|H]; [inversion H; subst; reflexivity|]).
  by apply elem_of_nil in H.
Qed.

(** A status other than 200: the code is printed, nothing else happens. *)
Lemma try_save_status (resp : Response) (filename : PurePath) (w : World) :
  status_code resp <> 200 ->
  try_save resp filename w
  = (Return tt, log_event (EvPrint ("Error: " +:+ str_of_int (status_code resp))) w).
Proof.
  intros H. unfold try_save.
  by destruct (Z.eqb_spec (status_code resp) 200).
Qed.

(** Status 200 and a body that does not parse: the decode error is printed,
    nothing else happens. *)
Lemma try_save_decode_error (resp : Response) (filename : PurePath) (w : World) (msg : string) :
  status_code resp = 200 ->
  json_loads (text resp) = inr msg ->
  try_save resp filename w
  = (Return tt, log_event (EvPrint ("JSON decode error: " +:+ msg)) w).
Proof.
  intros Hs Hj. unfold try_save. rewrite Hs. simpl.
  unfold try_except, bind, Response_json. by rewrite Hj.
Qed.

(** Status 200, a body that parses and a file that opens: the file holds
    the document and nothing else. *)
Lemma try_save_saved (resp : Response) (filename : PurePath) (w : World)
    (data : JSON) (m : mode) :
  status_code resp = 200 ->
  json_loads (text resp) = inl data ->
  open_w_check (w_fs w) (sample_file filename) = inr m ->
  try_save resp filename w
  = (Return tt,
     log_event (EvWrite (sample_file filename) (json_dumps data 2))
       (set_fs (<[sample_file filename := File m (json_dumps data 2)]> (w_fs w)) w)).
Proof.
  intros Hs Hj Ho. unfold try_save. rewrite Hs. simpl.
  unfold try_except, Response_json. rewrite Hj, bind_ret.
  rewrite (bind_Return _ _ _ _ _ (open_w_ok _ _ _ _ Ho)).
  unfold json_dump. by rewrite file_write_opened.
Qed.

(** Status 200, a body that parses and a file that does not open: the
    exception of [open] leaves [try_save]. *)
Lemma try_save_open_error (resp : Response) (filename : PurePath) (w : World)
    (data : JSON) (e : exn) :
  status_code resp = 200 ->
  json_loads (text resp) = inl data ->
  open_w_check (w_fs w) (sample_file filename) = inl e ->
  try_save resp filename w = (Raise e, w).
Proof.
  intros Hs Hj Ho. unfold try_save. rewrite Hs. simpl.
  unfold try_except, Response_json. rewrite Hj, bind_ret.
  rewrite (bind_Raise _ _ _ _ _ (open_w_error _ _ _ _ Ho)).
  by destruct (open_w_check_exn _ _ _ Ho) as [-> | [-> | [-> | ->]]].
Qed.

(** What a world has written since itself, after one more event. *)
Lemma writes_since_print (w : World) (line : string) :
  writes_since w (log_event (EvPrint line) w) = [].
Proof.
  unfold writes_since, log_event, written_of. cbn [w_log].
  rewrite omap_app. cbn. rewrite app_nil_r. apply drop_all.
Qed.

Lemma writes_since_write (w : World) (fs : gmap Location node) (l : Location) (d : string) :
  writes_since w (log_event (EvWrite l d) (set_fs fs w)) = [l].
Proof.
  unfold writes_since, log_event, set_fs, written_of. cbn [w_log].
  rewrite omap_app. cbn. by rewrite drop_app_length.
Qed.

Lemma writes_since_refl (w : World) : writes_since w w = [].
Proof. unfold writes_since. apply drop_all. Qed.

(** C1, as amended: the status that counts as success is exactly 200, and
    the file can be written only if [open] succeeds.  Whenever the sample
    file of the probe can be opened for writing, [try_save] writes a file if
    and only if the status code is 200 and the body parses as JSON.  A
    status other than 200 prints the status code and writes nothing; status
    200 with a body that does not parse prints the decode error with the
    message of the parser and writes nothing; status 200 with a body that
    parses leaves, in the file [samples/<label>.json], exactly the document
    as [json.dump] lays it out with [indent=2]. *)
Theorem try_save_persistence (resp : Response) (filename : PurePath) (w : World) :
  (status_code resp <> 200 ->
     try_save resp filename w
     = (Return tt, log_event (EvPrint ("Error: " +:+ str_of_int (status_code resp))) w)
     /\ writes_since w (snd (try_save resp filename w)) = [])
  /\ (forall msg, status_code resp = 200 -> json_loads (text resp) = inr msg ->
        try_save resp filename w
        = (Return tt, log_event (EvPrint ("JSON decode error: " +:+ msg)) w)
        /\ writes_since w (snd (try_save resp filename w)) = [])
  /\ (forall data m, status_code resp = 200 -> json_loads (text resp) = inl data ->
        open_w_check (w_fs w) (sample_file filename) = inr m ->
        try_save resp filename w
        = (Return tt,
           log_event (EvWrite (sample_file filename) (json_dumps data 2))
             (set_fs (<[sample_file filename := File m (json_dumps data 2)]> (w_fs w)) w))
        /\ writes_since w (snd (try_save resp filename w)) = [sample_file filename])
  /\ (writable (w_fs w) (sample_file filename) = true ->
        (writes_since w (snd (try_save resp filename w)) <> []
         <-> status_code resp = 200 /\ exists data, json_loads (text resp) = inl data))
  /\ (forall route label, (route, label) ∈ probes ->
        sample_file (Path label) = script_dir ++ ["samples"; label +:+ ".json"]).
Proof.
  assert (Hstatus : status_code resp <> 200 ->
            try_save resp filename w
            = (Return tt, log_event (EvPrint ("Error: " +:+ str_of_int (status_code resp))) w)
            /\ writes_since w (snd (try_save resp filename w)) = []).
  { intros H. rewrite (try_save_status _ _ _ H). split; [done|]. apply writes_since_print. }
  assert (Hdecode : forall msg, status_code resp = 200 -> json_loads (text resp) = inr msg ->
            try_save resp filename w
            = (Return tt, log_event (EvPrint ("JSON decode error: " +:+ msg)) w)
            /\ writes_since w (snd (try_save resp filename w)) = []).
  { intros msg Hs Hj. rewrite (try_save_decode_error _ _ _ _ Hs Hj).
    split; [done|]. apply writes_since_print. }
  assert (Hsaved : forall data m, status_code resp = 200 -> json_loads (text resp) = inl data ->
            open_w_check (w_fs w) (sample_file filename) = inr m ->
            try_save resp filename w
            = (Return tt,
               log_event (EvWrite (sample_file filename) (json_dumps data 2))
                 (set_fs (<[sample_file filename := File m (json_dumps data 2)]> (w_fs w)) w))
            /\ writes_since w (snd (try_save resp filename w)) = [sample_file filename]).
  { intros data m Hs Hj Ho. rewrite (try_save_saved _ _ _ _ _ Hs Hj Ho).
    split; [done|]. apply writes_since_write. }
  split; [exact Hstatus|]. split; [exact Hdecode|]. split; [exact Hsaved|].
  split; [|intros route label; apply sample_file_label].
  intros Hw. split.
  - intros Hn.
    destruct (decide (status_code resp = 200)) as [Hs|Hs];
      [|by destruct (Hstatus Hs) as [_ Hnil]].
    split; [done|].
    destruct (json_loads (text resp)) as [data|msg] eqn:Hj; [by exists data|].
    by destruct (Hdecode msg Hs eq_refl) as [_ Hnil].
  - intros [Hs [data Hj]].
    unfold writable in Hw.
    destruct (open_w_check (w_fs w) (sample_file filename)) as [e|m] eqn:Ho; [done|].
    destruct (Hsaved data m Hs Hj eq_refl) as [_ ->]. done.
Qed.

End try_save_cases.

(** ** One probe and the persistence loop *)

Section loop.
Context {E : Env}.
Import test_py.

Lemma Session_get_cases (url : string) (w : World) :
  Session_get url w
  = match server (requests_of (w_log w)) (mkRequest "GET" url [] (w_jar w)) with
    | Some resp =>
        (Return resp,
         set_jar (jar_update (w_jar w) (cookies resp))
           (log_event (EvRequest (mkRequest "GET" url [] (w_jar w))) w))
    | None =>
        (Raise (ConnectionError url),
         log_event (EvRequest (mkRequest "GET" url [] (w_jar w))) w)
    end.
Proof.
  unfold Session_get, send.
  by destruct (server (requests_of (w_log w)) (mkRequest "GET" url [] (w_jar w))).
Qed.

(** What [try_save] leaves behind: no request, the same cookies, and either
    no file or the one sample file. *)
Lemma try_save_effect (resp : Response) (filename : PurePath) (w : World) :
  exists evs,
    w_log (snd (try_save resp filename w)) = w_log w ++ evs
    /\ requests_of evs = []
    /\ w_jar (snd (try_save resp filename w)) = w_jar w
    /\ ((written_of evs = [] /\ w_fs (snd (try_save resp filename w)) = w_fs w)
        \/ exists m d,
             fst (try_save resp filename w) = Return tt
             /\ written_of evs = [sample_file filename]
             /\ open_w_check (w_fs w) (sample_file filename) = inr m
             /\ w_fs (snd (try_save resp filename w))
                = <[sample_file filename := File m d]> (w_fs w)).
Proof.
  destruct (decide (status_code resp = 200)) as [Hs|Hs].
  - destruct (json_loads (text resp)) as [data|msg] eqn:Hj.
    + destruct (open_w_check (w_fs w) (sample_file filename)) as [e|m] eqn:Ho.
      * rewrite (try_save_open_error _ _ _ _ _ Hs Hj Ho).
        exists []. rewrite app_nil_r.
        split; [done|]. split; [done|]. split; [done|]. left. by split.
      * rewrite (try_save_saved _ _ _ _ _ Hs Hj Ho).
        exists [EvWrite (sample_file filename) (json_dumps data 2)].
        split; [done|]. split; [done|]. split; [done|].
        right. by exists m, (json_dumps data 2).
    + rewrite (try_save_decode_error _ _ _ _ Hs Hj).
      exists [EvPrint ("JSON decode error: " +:+ msg)].
      split; [done|]. split; [done|]. split; [done|]. left. by split.
  - rewrite (try_save_status _ _ _ Hs).
    exists [EvPrint ("Error: " +:+ str_of_int (status_code resp))].
    split; [done|]. split; [done|]. split; [done|]. left. by split.
Qed.


Lemma probe_cases (route label : string) (w : World) :
  probe route label w
  = match server (requests_of (w_log w)) (mkRequest "GET" (lab_url +:+ route) [] (w_jar w)) with
    | Some resp =>
        try_save resp (Path label)
          (set_jar (jar_update (w_jar w) (cookies resp))
             (log_event (EvRequest (mkRequest "GET" (lab_url +:+ route) [] (w_jar w))) w))
    | None =>
        (Raise (ConnectionError (lab_url +:+ route)),
         log_event (EvRequest (mkRequest "GET" (lab_url +:+ route) [] (w_jar w))) w)
    end.
Proof.
  unfold probe, bind. rewrite Session_get_cases.
  by destruct (server _ _).
Qed.

(** One probe: exactly one request, a GET of the route, and at most the
    sample file of its label. *)
Lemma probe_effect (route label : string) (w : World) :
  exists evs,
    w_log (snd (probe route label w)) = w_log w ++ evs
    /\ method_url <$> requests_of evs = [("GET", lab_url +:+ route)]
    /\ ((written_of evs = [] /\ w_fs (snd (probe route label w)) = w_fs w)
        \/ exists m d,
             fst (probe route label w) = Return tt
             /\ written_of evs = [sample_file (Path label)]
             /\ open_w_check (w_fs w) (sample_file (Path label)) = inr m
             /\ w_fs (snd (probe route label w))
                = <[sample_file (Path label) := File m d]> (w_fs w)).
Proof.
  rewrite probe_cases.
  destruct (server _ _) as [resp|].
  - set (r := mkRequest "GET" (lab_url +:+ route) [] (w_jar w)).
    set (w1 := set_jar _ _).
    destruct (try_save_effect resp (Path label) w1) as (evs & Hlog & Hreq & _ & Hfs).
    exists (EvRequest r :: evs). split; [|split].
    + rewrite Hlog. subst w1. cbn [set_jar log_event w_log]. by rewrite <- app_assoc.
    + cbn. unfold requests_of in Hreq. by rewrite Hreq.
    + destruct Hfs as [[Hw Hf]|(m & d & Hr & Hw & Ho & Hf)].
      * left. split; [by cbn|]. by rewrite Hf.
      * right. exists m, d. split; [done|]. split; [by cbn|]. by split.
  - eexists [_]. split; [done|]. split; [done|]. left. by split.
Qed.

Lemma for_cons {A} (x : A) (l : list A) (body : A -> M unit) (w : World) :
  for_ (x :: l) body w
  = match body x w with
    | (Return _, w') => for_ l body w'
    | (Raise e, w') => (Raise e, w')
    end.
Proof. reflexivity. Qed.

Lemma requests_of_app (l1 l2 : list event) :
  requests_of (l1 ++ l2) = requests_of l1 ++ requests_of l2.
Proof. apply omap_app. Qed.

Lemma written_of_app (l1 l2 : list event) :
  written_of (l1 ++ l2) = written_of l1 ++ written_of l2.
Proof. apply omap_app. Qed.

(** The loop over a list of probes, by induction on the list: its requests
    are, in order, GETs of the routes (all of them when the loop returns),
    the files it writes are sample files of the labels, in order, and no
    other location of the file system changes. *)
Lemma loop_effect (ps : list (string * string)) (w : World) :
  exists evs,
    w_log (snd (for_ ps (fun p => probe (fst p) (snd p)) w)) = w_log w ++ evs
    /\ (method_url <$> requests_of evs)
         `prefix_of` ((fun p => ("GET", lab_url +:+ fst p)) <$> ps)
    /\ (fst (for_ ps (fun p => probe (fst p) (snd p)) w) = Return tt ->
        method_url <$> requests_of evs = (fun p => ("GET", lab_url +:+ fst p)) <$> ps)
    /\ written_of evs `sublist_of` ((fun p => sample_file (Path (snd p))) <$> ps)
    /\ (forall l, l ∉ (fun p => sample_file (Path (snd p))) <$> ps ->
        w_fs (snd (for_ ps (fun p => probe (fst p) (snd p)) w)) !! l = w_fs w !! l).
Proof.
  revert w. induction ps as [|[route label] ps IH]; intros w.
  - exists []. cbn. rewrite app_nil_r. repeat split; done.
  - rewrite for_cons. cbn [fst snd].
    destruct (probe_effect route label w) as (evs1 & Hlog1 & Hreq1 & Hfs1).
    destruct (probe route label w) as [[[]|e] w1] eqn:Hp; cbn [fst snd] in *.
    + destruct (IH w1) as (evs2 & Hlog2 & Hpre2 & Hall2 & Hsub2 & Hframe2).
      exists (evs1 ++ evs2).
      rewrite requests_of_app, written_of_app, !fmap_app, Hreq1, fmap_cons.
      split; [by rewrite Hlog2, Hlog1, app_assoc|].
      split; [by apply prefix_cons|].
      split; [by intros ->%Hall2|].
      split.
      * destruct Hfs1 as [[-> _]|(m & d & _ & -> & _)]; cbn.
        -- by apply sublist_cons.
        -- by apply sublist_skip.
      * intros l [Hne Hl]%not_elem_of_cons. rewrite (Hframe2 l Hl).
        destruct Hfs1 as [[_ ->]|(m & d & _ & _ & _ & ->)]; [done|].
        by rewrite lookup_insert_ne.
    + exists evs1. rewrite Hreq1, fmap_cons.
      split; [done|].
      split; [apply prefix_cons, prefix_nil|].
      split; [done|].
      destruct Hfs1 as [[-> Hf]|(m & d & ? & _)]; [|done].
      split; [apply sublist_nil_l|]. intros l _. by rewrite Hf.
Qed.


End loop.

(** ** The whole script *)

Section script.
Context {E : Env}.
Import test_py.

(** Lines 31-41 are the loop over [probes]. *)
Lemma script_loop {A} (k : M A) (w : World) :
  (probe_root ;;; probe_workspaces ;;; probe_api ;;; k) w = (persistence_loop ;;; k) w.
Proof.
  transitivity (((probe_root ;;; probe_workspaces ;;; probe_api) ;;; k) w);
    [|reflexivity].
  rewrite bind_assoc. apply bind_congr. intros _ w1.
  by rewrite bind_assoc.
Qed.

Lemma token_cases (w : World) :
  token w
  = match open_r_check (w_fs w) secret_file with
    | inl e => (Raise e, w)
    | inr s => (Return (strip s), w)
    end.
Proof.
  unfold token, bind, read_text. fold secret_file.
  by destruct (open_r_check (w_fs w) secret_file).
Qed.

Lemma client_cases (tok : string) (w : World) :
  client tok w
  = match server (requests_of (w_log w)) (mkRequest "GET" (lab_url +:+ "?token=" +:+ tok) [] []) with
    | Some resp =>
        (Return tt,
         set_jar (jar_update [] (cookies resp))
           (log_event (EvRequest (mkRequest "GET" (lab_url +:+ "?token=" +:+ tok) [] []))
              (set_jar [] w)))
    | None =>
        (Raise (ConnectionError (lab_url +:+ "?token=" +:+ tok)),
         log_event (EvRequest (mkRequest "GET" (lab_url +:+ "?token=" +:+ tok) [] []))
           (set_jar [] w))
    end.
Proof.
  unfold client, bind, Session. rewrite Session_get_cases. cbn [set_jar w_jar w_log].
  by destruct (server _ _).
Qed.

Lemma byte_range_probe_cases (tok : string) (w : World) :
  byte_range_probe tok w
  = match server (requests_of (w_log w))
            (mkRequest "GET" (lab_url +:+ "/files/hello.txt?token=" +:+ tok)
               [("Range", "bytes=0-1")] []) with
    | Some resp =>
        (Return (text resp),
         log_event (EvRequest (mkRequest "GET" (lab_url +:+ "/files/hello.txt?token=" +:+ tok)
                                 [("Range", "bytes=0-1")] [])) w)
    | None =>
        (Raise (ConnectionError (lab_url +:+ "/files/hello.txt?token=" +:+ tok)),
         log_event (EvRequest (mkRequest "GET" (lab_url +:+ "/files/hello.txt?token=" +:+ tok)
                                 [("Range", "bytes=0-1")] [])) w)
    end.
Proof.
  unfold byte_range_probe, bind, requests_get, send.
  change ("bytes=" +:+ str_of_int (start (range_ 2)) +:+ "-"
          +:+ str_of_int (stop (range_ 2) - 1)) with "bytes=0-1".
  by destruct (server _ _).
Qed.

Lemma main_cases (w : World) :
  main w
  = match open_r_check (w_fs w) secret_file with
    | inl e => (Raise e, w)
    | inr s =>
        (client (strip s) ;;; persistence_loop ;;; byte_range_probe (strip s)) w
    end.
Proof.
  unfold main. unfold bind at 1. rewrite token_cases.
  destruct (open_r_check (w_fs w) secret_file) as [e|s]; [done|].
  unfold bind at 1 5.
  destruct (client (strip s) w) as [[[]|e] w1]; [|done].
  apply script_loop.
Qed.

(** A run that can read the token: its requests are a prefix of the
    expected ones (all of them when the run returns), it writes sample
    files only, in the order of the probes, and changes nothing else. *)
Lemma run_effect (fs : gmap Location node) (s : string) :
  open_r_check fs secret_file = inr s ->
  (method_url <$> requests_of (w_log (snd (run fs))))
    `prefix_of` expected_requests (strip s)
  /\ (forall body, fst (run fs) = Return body ->
      method_url <$> requests_of (w_log (snd (run fs))) = expected_requests (strip s))
  /\ written_of (w_log (snd (run fs)))
       `sublist_of` ((fun p => sample_file (Path (snd p))) <$> probes)
  /\ (forall l, l ∉ (fun p => sample_file (Path (snd p))) <$> probes ->
      w_fs (snd (run fs)) !! l = fs !! l).
Proof.
  intros Hs. destruct (run fs) as [out wf] eqn:Hrun. cbn [fst snd].
  unfold run in Hrun. rewrite main_cases in Hrun. cbn [w_fs] in Hrun.
  rewrite Hs in Hrun. unfold expected_requests.
  unfold bind at 1 in Hrun. rewrite client_cases in Hrun. cbn [w_log] in Hrun.
  destruct (server _ _) as [resp0|].
  - set (w1 := set_jar _ _) in Hrun.
    destruct (loop_effect probes w1) as (evs & Hlog & Hpre & Hall & Hsub & Hframe).
    unfold bind at 1 in Hrun. unfold persistence_loop in Hrun.
    destruct (for_ probes _ w1) as [[[]|e] w2]; cbn [fst snd] in *.
    + specialize (Hall eq_refl).
      rewrite byte_range_probe_cases in Hrun.
      assert (Hreq : forall ev,
                 method_url <$> requests_of (w_log (log_event ev w2))
                 = ("GET", lab_url +:+ "?token=" +:+ strip s)
                   :: ((fun p => ("GET", lab_url +:+ fst p)) <$> probes)
                   ++ (method_url <$> requests_of [ev])).
      { intros ev. cbn [log_event w_log]. rewrite Hlog.
        rewrite !requests_of_app, !fmap_app, Hall. done. }
      assert (Hwr : forall r, written_of (w_log (log_event (EvRequest r) w2))
                               = written_of evs).
      { intros r. cbn [log_event w_log]. rewrite Hlog.
        rewrite !written_of_app. cbn. by rewrite app_nil_r. }
      destruct (server _ _) as [respB|]; inversion Hrun; subst out wf;
        rewrite Hreq, Hwr; (split; [done|]); (split; [done|]); by split.
    + inversion Hrun; subst out wf.
      split; [|split; [done|split]].
      * rewrite Hlog, requests_of_app, fmap_app.
        apply prefix_app. by apply prefix_app_r.
      * rewrite Hlog, written_of_app. done.
      * done.
  - inversion Hrun; subst out wf. cbn. split; [|split; [done|split]].
    + apply prefix_cons, prefix_nil.
    + apply sublist_nil_l.
    + done.
Qed.


(** The requests of the script, written out. *)
Lemma expected_requests_list (tok : string) :
  expected_requests tok
  = [("GET", "http://localhost:8888/?token=" +:+ tok);
     ("GET", "http://localhost:8888//api/");
     ("GET", "http://localhost:8888//lab/api/workspaces");
     ("GET", "http://localhost:8888//api/sessions");
     ("GET", "http://localhost:8888//api/kernels");
     ("GET", "http://localhost:8888//api/contents");
     ("GET", "http://localhost:8888//api/terminals");
     ("GET", "http://localhost:8888//api/kernelspecs");
     ("GET", "http://localhost:8888//api/status");
     ("GET", "http://localhost:8888//api/me");
     ("GET", "http://localhost:8888//files/hello.txt?token=" +:+ tok)].
Proof. reflexivity. Qed.

(** The sample files of the script, written out. *)
Lemma sample_files_list :
  (fun p => sample_file (Path (snd p))) <$> probes
  = (fun name => script_dir ++ ["samples"; name])
      <$> ["[GET]__root.json"; "[GET]lab__workspaces.json"; "[GET]sessions.json";
           "[GET]kernels.json"; "[GET]contents.json"; "[GET]terminals.json";
           "[GET]kernelspecs.json"; "[GET]status.json"; "[GET]me.json"].
Proof. reflexivity. Qed.


(** The [i]-th request of a run is the [i]-th expected one. *)
Lemma run_request (fs : gmap Location node) (s : string) (i : nat) (r : Request) :
  open_r_check fs secret_file = inr s ->
  requests_of (w_log (snd (run fs))) !! i = Some r ->
  expected_requests (strip s) !! i = Some (method_url r).
Proof.
  intros Hs Hr. destruct (run_effect fs s Hs) as (Hpre & _).
  eapply prefix_lookup_Some; [|exact Hpre].
  by rewrite list_lookup_fmap, Hr.
Qed.

(** C2, as amended: the token is a query parameter of the first request of
    the run (the one that follows the construction of the client) and of the
    byte-range request only.  The nine requests between them, the probes of
    steps 2-4, have no query parameter at all, hence none named token (each
    is sent with the cookie jar of the session, see [probe_cases]). *)
Theorem token_query_parameter (fs : gmap Location node) (s : string) (i : nat) (r : Request) :
  open_r_check fs secret_file = inr s ->
  requests_of (w_log (snd (run fs))) !! i = Some r ->
  (i = 0%nat -> req_url r = lab_url +:+ "?token=" +:+ strip s)
  /\ ((1 <= i <= 9)%nat ->
      query_params (req_url r) = [] /\ query_param "token" (req_url r) = None)
  /\ (i = 10%nat -> req_url r = lab_url +:+ "/files/hello.txt?token=" +:+ strip s)
  /\ (i <= 10)%nat.
Proof.
  intros Hs Hr. pose proof (run_request fs s i r Hs Hr) as H.
  rewrite expected_requests_list in H. unfold method_url in H.
  do 11 (destruct i as [|i];
         [injection H as Hm Hu; rewrite <- Hu;
          repeat split; (done || lia)|]).
  done.
Qed.

(** C10, as amended: the base URL ends with a slash and every route starts
    with one, so the path of every request but the first starts with two
    slashes: the root info probe, the workspaces probe, the seven
    /api/{name} probes, and the byte-range request as well.  Only the first
    request, to the root page, has a single slash. *)
Theorem double_slash_requests (fs : gmap Location node) (s : string) (i : nat) (r : Request) :
  open_r_check fs secret_file = inr s ->
  requests_of (w_log (snd (run fs))) !! i = Some r ->
  double_slash (req_url r) = negb (Nat.eqb i 0).
Proof.
  intros Hs Hr. pose proof (run_request fs s i r Hs Hr) as H.
  rewrite expected_requests_list in H. unfold method_url in H.
  do 11 (destruct i as [|i]; [injection H as Hm Hu; by rewrite <- Hu|]).
  done.
Qed.

(** C7: the diagnostic probe sends exactly one request, a GET of the static
    file with the header Range: bytes=0-1, and touches no file, whatever the
    server answers. *)
Theorem byte_range_probe_request (tok : string) (w : World) :
  let r := mkRequest "GET" (lab_url +:+ "/files/hello.txt?token=" +:+ tok)
             [("Range", "bytes=0-1")] [] in
  snd (byte_range_probe tok w) = log_event (EvRequest r) w
  /\ fst (byte_range_probe tok w)
     = match server (requests_of (w_log w)) r with
       | Some resp => Return (text resp)
       | None => Raise (ConnectionError (req_url r))
       end
  /\ req_url r = "http://localhost:8888//files/hello.txt?token=" +:+ tok
  /\ w_fs (snd (byte_range_probe tok w)) = w_fs w
  /\ writes_since w (snd (byte_range_probe tok w)) = [].
Proof.
  intros r. rewrite byte_range_probe_cases. fold r.
  assert (Hw : writes_since w (log_event (EvRequest r) w) = []).
  { unfold writes_since, log_event, written_of. cbn [w_log].
    rewrite omap_app. cbn. rewrite app_nil_r. apply drop_all. }
  by destruct (server _ r).
Qed.

(** C6: when the credential file does not exist or cannot be read, the run
    stops with the exception of [open], which the specification calls
    MissingCredentialError, and the world is as before: no request was sent
    and no file was written. *)
Theorem missing_credential (w : World) :
  readable (w_fs w) secret_file = false ->
  exists e,
    main w = (Raise e, w)
    /\ MissingCredentialError secret_file e
    /\ requests_of (w_log (snd (main w))) = requests_of (w_log w)
    /\ writes_since w (snd (main w)) = []
    /\ w_fs (snd (main w)) = w_fs w.
Proof.
  intros H. rewrite main_cases. unfold readable, MissingCredentialError in *.
  destruct (open_r_check (w_fs w) secret_file) as [e|s] eqn:Ho; [|done].
  exists e. split; [done|]. split.
  - unfold open_r_check in Ho.
    destruct (w_fs w !! secret_file) as [[b|m d]|]; [| |].
    + inversion Ho; auto.
    + destruct (m_read m); inversion Ho; auto.
    + inversion Ho; auto.
  - cbn [snd]. by rewrite writes_since_refl.
Qed.

(** The file at [l] cannot be read exactly when it does not exist, is a
    directory or lacks the read permission. *)
Lemma readable_false (fs : gmap Location node) (l : Location) :
  readable fs l = false
  <-> fs !! l = None
      \/ (exists b, fs !! l = Some (Dir b))
      \/ (exists m d, fs !! l = Some (File m d) /\ m_read m = false).
Proof.
  unfold readable, open_r_check.
  destruct (fs !! l) as [[b|m d]|].
  - split; [eauto|done].
  - destruct (m_read m) eqn:Hm.
    + split; [done|]. intros [?|[[? ?]|(m' & d' & Heq & Hr)]]; try done.
      inversion Heq; subst. congruence.
    + split; [|done]. intros _. right. right. by exists m, d.
  - split; [eauto|done].
Qed.


End script.

(** ** The credential file *)

Section credential.
Context {E : Env}.
Import test_py.

(** The mode of a file opened for writing: its own if it exists, the
    default if it is created. *)
Lemma open_w_check_mode (fs : gmap Location node) (l : Location) (m : mode) :
  open_w_check fs l = inr m ->
  (exists d, fs !! l = Some (File m d)) \/ (fs !! l = None /\ m = default_mode).
Proof.
  unfold open_w_check. intros H.
  destruct (fs !! l) as [[b|m' d]|]; [done| |].
  - destruct (m_write m'); inversion H; subst. eauto.
  - destruct (fs !! parent l) as [[[|]|m' d]|]; inversion H. auto.
Qed.

(** Writing [t] to the location that [token] reads, then loading it. *)
Lemma write_then_token (p : PurePath) (t : string) (w w' : World) :
  locate cwd p = secret_file ->
  whitespace_free t = true ->
  (forall m d, w_fs w !! secret_file = Some (File m d) -> m_read m = true) ->
  write_text cwd p t w = (Return tt, w') ->
  token w' = (Return t, w').
Proof.
  intros Hp Ht Hr Hw.
  destruct (open_w_check (w_fs w) (locate cwd p)) as [e|m] eqn:Ho.
  - by rewrite (write_text_error _ _ _ _ _ Ho) in Hw.
  - rewrite (write_text_ok _ _ _ _ _ Ho) in Hw. inversion Hw as [Hw']. clear Hw.
    rewrite token_cases. unfold open_r_check.
    cbn [log_event set_fs w_fs]. rewrite Hp, lookup_insert_eq.
    rewrite Hp in Ho.
    assert (Hm : m_read m = true).
    { destruct (open_w_check_mode _ _ _ Ho) as [[d Hd]|[_ ->]]; [|done].
      by apply (Hr m d). }
    rewrite Hm. by rewrite (strip_whitespace_free t Ht).
Qed.


Lemma snoc_ne {A} (l : list A) (x : A) : l ++ [x] <> l.
Proof.
  intros H. apply (f_equal length) in H. rewrite length_app in H. cbn in H. lia.
Qed.

(** Where the bootstrap writes. *)
Lemma bootstrap_location :
  locate cwd (truediv start_jupyterlab.workspace_dir ".secret") = script_dir ++ [".secret"].
Proof. reflexivity. Qed.

(** C9: the bootstrap writes the token to [.secret] in the directory of the
    script, the probe script reads [.secret] in the working directory, and
    the round trip from the one to the other is guaranteed exactly when the
    working directory is the script directory. *)
Theorem secret_round_trip :
  (forall tok w w',
     start_jupyterlab.write_secret tok w = (Return tt, w') ->
     exists m, w_fs w' !! (script_dir ++ [".secret"]) = Some (File m tok))
  /\ (forall w,
        token w
        = match open_r_check (w_fs w) (cwd ++ [".secret"]) with
          | inl e => (Raise e, w)
          | inr s => (Return (strip s), w)
          end)
  /\ ((forall tok w w',
         whitespace_free tok = true ->
         (forall m d, w_fs w !! (script_dir ++ [".secret"]) = Some (File m d) ->
                      m_read m = true) ->
         start_jupyterlab.write_secret tok w = (Return tt, w') ->
         token w' = (Return tok, w'))
      <-> cwd = script_dir).
Proof.
  split; [|split; [exact token_cases|split]].
  - intros tok w w' Hw. unfold start_jupyterlab.write_secret in Hw.
    destruct (open_w_check (w_fs w)
                (locate cwd (truediv start_jupyterlab.workspace_dir ".secret")))
      as [e|m] eqn:Ho.
    + by rewrite (write_text_error _ _ _ _ _ Ho) in Hw.
    + rewrite (write_text_ok _ _ _ _ _ Ho) in Hw. injection Hw as <-. exists m.
      apply (lookup_insert_eq (w_fs w) (script_dir ++ [".secret"])).
  - intros Hall.
    destruct (decide (cwd = script_dir)) as [|Hne]; [done|]. exfalso.
    set (fs := <[script_dir := Dir true]> (∅ : gmap Location node)).
    assert (Ho : open_w_check fs
                   (locate cwd (truediv start_jupyterlab.workspace_dir ".secret"))
                 = inr default_mode).
    { rewrite bootstrap_location. unfold open_w_check, parent, fs.
      rewrite lookup_insert_ne by (intros H; symmetry in H; by apply snoc_ne in H).
      rewrite lookup_empty, removelast_last. by rewrite lookup_insert_eq. }
    pose proof (write_text_ok cwd _ "t" (mkWorld fs [] []) _ Ho) as Hw.
    apply Hall in Hw; [|done|].
    + rewrite token_cases in Hw. unfold open_r_check in Hw.
      cbn [log_event set_fs w_fs] in Hw. rewrite bootstrap_location in Hw.
      rewrite secret_file_names in Hw.
      rewrite lookup_insert_ne in Hw by (intros H; apply app_inj_tail in H as [? _]; done).
      unfold fs in Hw.
      destruct (decide (script_dir = cwd ++ [".secret"])) as [Heq|Hn].
      * rewrite <- Heq, lookup_insert_eq in Hw. done.
      * rewrite lookup_insert_ne, lookup_empty in Hw by done. done.
    + intros m d. cbn [w_fs]. unfold fs.
      rewrite lookup_insert_ne by (intros H; symmetry in H; by apply snoc_ne in H).
      by rewrite lookup_empty.
  - intros Heq tok w w' Ht Hr Hw.
    apply (write_then_token (truediv start_jupyterlab.workspace_dir ".secret") tok w w');
      try done.
    + rewrite bootstrap_location, secret_file_names. by rewrite Heq.
    + rewrite secret_file_names, Heq. exact Hr.
Qed.

End credential.

(** ** Running the script twice *)

Section rerun.
Context {E : Env}.
Import test_py.

Lemma set_fs_same (w : World) : set_fs (w_fs w) w = w.
Proof. by destruct w. Qed.

Lemma open_w_check_writable (fs : gmap Location node) (l : Location) (m : mode) :
  open_w_check fs l = inr m -> m_write m = true.
Proof.
  unfold open_w_check. intros H.
  destruct (fs !! l) as [[b|m' d]|]; [done| |].
  - destruct (m_write m') eqn:Hm; inversion H; by subst.
  - destruct (fs !! parent l) as [[[|]|m' d]|]; inversion H. done.
Qed.

(** [open] looks at the location and at its parent only. *)
Lemma open_w_check_agree (fs fs' : gmap Location node) (l : Location) :
  fs' !! l = fs !! l -> fs' !! parent l = fs !! parent l ->
  open_w_check fs' l = open_w_check fs l.
Proof. unfold open_w_check. by intros -> ->. Qed.

(** [try_save] over a file system that already agrees, at the sample file
    and its directory, with what the same [try_save] left behind: the same
    outcome, and the file system stays as it is. *)
Lemma try_save_replay (resp : Response) (filename : PurePath) (w : World)
    (fs' : gmap Location node) :
  fs' !! sample_file filename
    = w_fs (snd (try_save resp filename w)) !! sample_file filename ->
  fs' !! parent (sample_file filename)
    = w_fs (snd (try_save resp filename w)) !! parent (sample_file filename) ->
  try_save resp filename (set_fs fs' w)
  = (fst (try_save resp filename w), set_fs fs' (snd (try_save resp filename w))).
Proof.
  destruct (decide (status_code resp = 200)) as [Hs|Hs].
  - destruct (json_loads (text resp)) as [data|msg] eqn:Hj.
    + destruct (open_w_check (w_fs w) (sample_file filename)) as [e|m] eqn:Ho.
      * rewrite (try_save_open_error _ _ w _ _ Hs Hj Ho). cbn [fst snd].
        intros H1 H2. apply (try_save_open_error _ _ _ data); [done..|].
        cbn [set_fs w_fs]. by rewrite (open_w_check_agree _ _ _ H1 H2).
      * rewrite (try_save_saved _ _ w _ _ Hs Hj Ho). cbn [fst snd log_event set_fs w_fs].
        rewrite lookup_insert_eq. intros H1 _.
        assert (Ho' : open_w_check (w_fs (set_fs fs' w)) (sample_file filename) = inr m).
        { cbn [set_fs w_fs]. unfold open_w_check. rewrite H1.
          by rewrite (open_w_check_writable _ _ _ Ho). }
        rewrite (try_save_saved _ _ _ _ _ Hs Hj Ho').
        cbn [set_fs log_event w_fs w_jar w_log].
        by rewrite (insert_id _ _ _ H1).
    + rewrite (try_save_decode_error _ _ w _ Hs Hj). intros _ _.
      by rewrite (try_save_decode_error _ _ _ _ Hs Hj).
  - rewrite (try_save_status _ _ w Hs). intros _ _.
    by rewrite (try_save_status _ _ _ Hs).
Qed.

Lemma probe_replay (route label : string) (w : World) (fs' : gmap Location node) :
  fs' !! sample_file (Path label)
    = w_fs (snd (probe route label w)) !! sample_file (Path label) ->
  fs' !! parent (sample_file (Path label))
    = w_fs (snd (probe route label w)) !! parent (sample_file (Path label)) ->
  probe route label (set_fs fs' w)
  = (fst (probe route label w), set_fs fs' (snd (probe route label w))).
Proof.
  rewrite !probe_cases. cbn [set_fs w_log w_jar].
  destruct (server _ _) as [resp|]; [|done].
  intros H1 H2.
  by rewrite <- (try_save_replay resp (Path label) _ fs' H1 H2).
Qed.

(** The loop over a file system that already agrees, at the sample files
    and their directories, with what the same loop left behind. *)
Lemma loop_replay (ps : list (string * string)) (w : World) (fs' : gmap Location node) :
  NoDup ((fun p => sample_file (Path (snd p))) <$> ps) ->
  (forall p, p ∈ ps ->
     parent (sample_file (Path (snd p))) ∉ (fun p => sample_file (Path (snd p))) <$> ps) ->
  (forall p, p ∈ ps ->
     fs' !! sample_file (Path (snd p))
       = w_fs (snd (for_ ps (fun p => probe (fst p) (snd p)) w)) !! sample_file (Path (snd p))
     /\ fs' !! parent (sample_file (Path (snd p)))
        = w_fs (snd (for_ ps (fun p => probe (fst p) (snd p)) w))
            !! parent (sample_file (Path (snd p)))) ->
  for_ ps (fun p => probe (fst p) (snd p)) (set_fs fs' w)
  = (fst (for_ ps (fun p => probe (fst p) (snd p)) w),
     set_fs fs' (snd (for_ ps (fun p => probe (fst p) (snd p)) w))).
Proof.
  revert w. induction ps as [|[route label] ps IH]; intros w Hnd Hpar Hagree; [done|].
  rewrite fmap_cons in Hnd. apply NoDup_cons in Hnd as [Hfresh Hnd].
  assert (Hpar' : forall p, p ∈ ps ->
            parent (sample_file (Path (snd p))) ∉ (fun p => sample_file (Path (snd p))) <$> ps).
  { intros p Hp. specialize (Hpar p (list_elem_of_further _ _ _ Hp)).
    rewrite fmap_cons in Hpar. by apply not_elem_of_cons in Hpar as [_ ?]. }
  assert (Hparent : parent (sample_file (Path label))
                    ∉ (fun p => sample_file (Path (snd p))) <$> ps).
  { specialize (Hpar (route, label) (list_elem_of_here _ _)).
    rewrite fmap_cons in Hpar. by apply not_elem_of_cons in Hpar as [_ ?]. }
  rewrite !for_cons in *. cbn [fst snd] in *.
  destruct (loop_effect ps (snd (probe route label w))) as (_ & _ & _ & _ & _ & Hframe).
  destruct (Hagree (route, label) (list_elem_of_here _ _)) as [H1 H2]. cbn [snd] in H1, H2.
  destruct (probe route label w) as [[[]|e] w1] eqn:Hp; cbn [fst snd] in *.
  - rewrite (Hframe _ Hfresh) in H1. rewrite (Hframe _ Hparent) in H2.
    pose proof (probe_replay route label w fs') as Hr. rewrite Hp in Hr.
    rewrite (Hr H1 H2). cbn [fst snd].
    apply IH; [done..|].
    intros p Hin. apply (Hagree p). by right.
  - pose proof (probe_replay route label w fs') as Hr. rewrite Hp in Hr.
    by rewrite (Hr H1 H2).
Qed.

Lemma replays_bind {A B} (m : M A) (k : A -> M B) (w : World) (fs' : gmap Location node) :
  replays m w fs' ->
  (forall a, fst (m w) = Return a -> replays (k a) (snd (m w)) fs') ->
  replays (bind m k) w fs'.
Proof.
  unfold replays, bind. intros -> Hk.
  destruct (m w) as [[a|e] w1]; cbn [fst snd] in *; [|done].
  by rewrite (Hk a eq_refl).
Qed.

Lemma client_replays (tok : string) (w : World) (fs' : gmap Location node) :
  replays (client tok) w fs'.
Proof.
  unfold replays. rewrite !client_cases. cbn [set_fs w_log].
  by destruct (server _ _).
Qed.

Lemma byte_range_probe_replays (tok : string) (w : World) (fs' : gmap Location node) :
  replays (byte_range_probe tok) w fs'.
Proof.
  unfold replays. rewrite !byte_range_probe_cases. cbn [set_fs w_log].
  by destruct (server _ _).
Qed.

Lemma client_fs (tok : string) (w : World) : w_fs (snd (client tok w)) = w_fs w.
Proof. rewrite client_cases. by destruct (server _ _). Qed.

Lemma byte_range_probe_fs (tok : string) (w : World) :
  w_fs (snd (byte_range_probe tok w)) = w_fs w.
Proof. rewrite byte_range_probe_cases. by destruct (server _ _). Qed.

(** The file system after the script is the one after its loop. *)
Lemma main_fs (w : World) :
  w_fs (snd (main w))
  = match open_r_check (w_fs w) secret_file with
    | inl _ => w_fs w
    | inr s =>
        match client (strip s) w with
        | (Return _, w1) => w_fs (snd (persistence_loop w1))
        | (Raise _, _) => w_fs w
        end
    end.
Proof.
  rewrite main_cases.
  destruct (open_r_check (w_fs w) secret_file) as [e|s]; [done|].
  pose proof (client_fs (strip s) w) as Hc.
  unfold bind.
  destruct (client (strip s) w) as [[[]|e] w1]; cbn [snd] in *; [|done].
  destruct (persistence_loop w1) as [[[]|e] w2]; cbn [snd]; [|done].
  apply byte_range_probe_fs.
Qed.

Lemma sample_files_NoDup :
  NoDup ((fun p => sample_file (Path (snd p))) <$> probes).
Proof.
  rewrite sample_files_list.
  apply NoDup_fmap_2; [intros x y H; apply app_inv_head in H; by inversion H|].
  apply NoDup_ListNoDup. repeat constructor; cbn; intuition discriminate.
Qed.

Lemma sample_file_parent (p : string * string) :
  p ∈ probes ->
  parent (sample_file (Path (snd p))) ∉ (fun p => sample_file (Path (snd p))) <$> probes.
Proof.
  intros Hp. destruct p as [route label]. cbn [snd].
  rewrite (sample_file_label route label Hp), sample_files_list.
  unfold parent. change (script_dir ++ ["samples"; label +:+ ".json"])
    with (script_dir ++ ["samples"] ++ [label +:+ ".json"]).
  rewrite app_assoc, removelast_last.
  intros (name & Heq & _)%list_elem_of_fmap.
  apply app_inv_head in Heq. discriminate.
Qed.

Lemma secret_file_not_sample :
  secret_file ∉ (fun p => sample_file (Path (snd p))) <$> probes.
Proof.
  rewrite sample_files_list, secret_file_names.
  intros (name & Heq & Hname)%list_elem_of_fmap.
  change (script_dir ++ ["samples"; name]) with (script_dir ++ ["samples"] ++ [name]) in Heq.
  rewrite app_assoc in Heq. apply app_inj_tail in Heq as [_ <-].
  repeat (apply elem_of_cons in Hname as [Hname|Hname]; [discriminate|]).
  by apply elem_of_nil in Hname.
Qed.

(** The script leaves every location but the sample files as it was. *)
Lemma main_frame (w : World) (l : Location) :
  l ∉ (fun p => sample_file (Path (snd p))) <$> probes ->
  w_fs (snd (main w)) !! l = w_fs w !! l.
Proof.
  intros Hl. rewrite main_fs.
  destruct (open_r_check (w_fs w) secret_file) as [e|s]; [done|].
  pose proof (client_fs (strip s) w) as Hc.
  destruct (client (strip s) w) as [[[]|e] w1]; cbn [snd] in *; [|done].
  destruct (loop_effect probes w1) as (_ & _ & _ & _ & _ & Hframe).
  unfold persistence_loop. by rewrite (Hframe l Hl), Hc.
Qed.

(** The script replays over the file system that it left behind. *)
Lemma main_replays (w : World) : replays main w (w_fs (snd (main w))).
Proof.
  pose proof (main_frame w secret_file secret_file_not_sample) as Hsec.
  pose proof (main_fs w) as Hfs.
  set (fs' := w_fs (snd (main w))) in *. clearbody fs'.
  unfold replays. rewrite !main_cases. cbn [set_fs w_fs].
  assert (open_r_check fs' secret_file = open_r_check (w_fs w) secret_file) as ->.
  { unfold open_r_check. by rewrite Hsec. }
  destruct (open_r_check (w_fs w) secret_file) as [e|s]; [done|].
  apply replays_bind; [apply client_replays|]. intros [] Hc.
  destruct (client (strip s) w) as [o w1]; cbn [fst snd] in *. subst o.
  apply replays_bind; [|intros; apply byte_range_probe_replays].
  unfold replays, persistence_loop in *. apply loop_replay.
  - apply sample_files_NoDup.
  - apply sample_file_parent.
  - intros p Hp. by rewrite Hfs.
Qed.

(** C8: running the script a second time, against a server that answers as
    before, over the file system that the first run left behind, leaves
    that file system as it is: every output file holds the same bytes
    ([open] truncates, nothing is appended).  The second run also ends as
    the first did and sends the same requests. *)
Theorem run_twice (fs : gmap Location node) :
  run (w_fs (snd (run fs))) = run fs
  /\ w_fs (snd (run (w_fs (snd (run fs))))) = w_fs (snd (run fs)).
Proof.
  assert (H : run (w_fs (snd (run fs))) = run fs).
  { unfold run.
    pose proof (main_replays (mkWorld fs [] [])) as H. unfold replays in H.
    etransitivity; [exact H|].
    rewrite set_fs_same. symmetry. apply surjective_pairing. }
  split; [done|]. by rewrite H.
Qed.

End rerun.

(** * The scripts on the concrete environment *)

Section demo.
Import test_py.

Import Demo.



(** The token that the loader reads from the demo file system. *)
Example demo_token :
  @token Demo.env (Demo.world Demo.fs) = (Return "c0ffee42", Demo.world Demo.fs).
Proof. by vm_compute. Qed.

(** C1, counterexample: status 200 and a body that parses, in a checkout
    without the [samples] directory.  The status indicates success and the
    body is JSON, yet no file is written: [open] raises and the exception
    leaves [try_save]. *)
Lemma try_save_without_directory :
  let resp := mkResponse 200 "{}" [] in
  let w := Demo.world Demo.fs_no_samples in
  @try_save Demo.env resp (Path "[GET]__root") w = (Raise (FileNotFoundError root_file), w)
  /\ spec_status_success (status_code resp) = true
  /\ @json_loads Demo.env (text resp) = inl (Json.Obj [])
  /\ writes_since w (snd (@try_save Demo.env resp (Path "[GET]__root") w)) = []
  /\ ~ @persistence_as_stated Demo.env resp (Path "[GET]__root") w.
Proof.
  intros resp w.
  assert (Hrun : @try_save Demo.env resp (Path "[GET]__root") w
                 = (Raise (FileNotFoundError root_file), w)) by by vm_compute.
  split; [exact Hrun|]. split; [done|]. split; [by vm_compute|].
  split; [by rewrite Hrun|].
  unfold persistence_as_stated. rewrite Hrun. intros [_ H].
  apply H; [|apply writes_since_refl].
  split; [done|]. by exists (Json.Obj []).
Qed.

(** A status of the success range other than 200 is reported as an error,
    document or not. *)
Example try_save_created :
  let resp := mkResponse 201 "{}" [] in
  let w := Demo.world Demo.fs in
  @try_save Demo.env resp (Path "[GET]__root") w = (Return tt, log_event (EvPrint "Error: 201") w)
  /\ spec_status_success (status_code resp) = true
  /\ ~ @persistence_as_stated Demo.env resp (Path "[GET]__root") w.
Proof.
  intros resp w.
  assert (Hrun : @try_save Demo.env resp (Path "[GET]__root") w
                 = (Return tt, log_event (EvPrint "Error: 201") w)) by by vm_compute.
  split; [exact Hrun|]. split; [done|].
  unfold persistence_as_stated. rewrite Hrun. intros [_ H].
  apply H; [|apply writes_since_print].
  split; [done|]. by exists (Json.Obj []).
Qed.

(** C1, witness: a document that is saved, with its layout. *)
Lemma try_save_persistence_witness :
  let resp := mkResponse 200 "[1,[2,3]]" [] in
  let w := Demo.world Demo.fs in
  let laid_out := "[" +:+ Json.newline +:+ "  1," +:+ Json.newline
                  +:+ "  [" +:+ Json.newline +:+ "    2," +:+ Json.newline
                  +:+ "    3" +:+ Json.newline +:+ "  ]" +:+ Json.newline +:+ "]" in
  @try_save Demo.env resp (Path "[GET]__root") w
  = (Return tt,
     log_event (EvWrite root_file laid_out)
       (set_fs (<[root_file := File default_mode laid_out]> Demo.fs) w))
  /\ writes_since w (snd (@try_save Demo.env resp (Path "[GET]__root") w)) = [root_file].
Proof.
  intros resp w laid_out.
  destruct (@try_save_persistence Demo.env resp (Path "[GET]__root") w)
    as (_ & _ & Hsaved & _).
  apply (Hsaved (Json.Arr [Json.Int 1; Json.Arr [Json.Int 2; Json.Int 3]]) default_mode);
    by vm_compute.
Defined.

(** C2, counterexample: the token was read, and of the eleven requests of
    the run only the first and the last carry it as a query parameter. *)
Lemma probes_carry_no_token :
  (fun r => query_param "token" (req_url r))
    <$> requests_of (w_log (snd (@run Demo.env Demo.fs)))
  = [Some "c0ffee42"; None; None; None; None; None; None; None; None; None;
     Some "c0ffee42"]
  /\ (req_url <$> requests_of (w_log (snd (@run Demo.env Demo.fs)))) !! 1%nat
     = Some "http://localhost:8888//api/".
Proof. split; by vm_compute. Qed.

(** C2, witness: the root info probe of the demo run. *)
Lemma token_query_parameter_witness :
  let r := mkRequest "GET" "http://localhost:8888//api/" [] [("_xsrf", "2|d8a1")] in
  requests_of (w_log (snd (@run Demo.env Demo.fs))) !! 1%nat = Some r
  /\ query_params (req_url r) = []
  /\ query_param "token" (req_url r) = None.
Proof.
  intros r.
  assert (Hr : requests_of (w_log (snd (@run Demo.env Demo.fs))) !! 1%nat = Some r)
    by by vm_compute.
  split; [exact Hr|].
  destruct (@token_query_parameter Demo.env Demo.fs Demo.secret_text 1 r) as (_ & H & _);
    [by vm_compute|exact Hr|].
  apply H. lia.
Defined.





(** C6, witness: a fresh checkout has no token file. *)
Lemma missing_credential_witness :
  @run Demo.env Demo.fs_fresh
  = (Raise (FileNotFoundError (Demo.dir ++ [".secret"])), Demo.world Demo.fs_fresh)
  /\ exists e,
       @main Demo.env (Demo.world Demo.fs_fresh) = (Raise e, Demo.world Demo.fs_fresh)
       /\ MissingCredentialError (@secret_file Demo.env) e.
Proof.
  split; [by vm_compute|].
  destruct (@missing_credential Demo.env (Demo.world Demo.fs_fresh)) as (e & H1 & H2 & _);
    [by vm_compute|].
  by exists e.
Defined.

(** The answer of the demo server to the diagnostic probe. *)
Example byte_range_probe_demo :
  @byte_range_probe Demo.env "c0ffee42" (Demo.world Demo.fs)
  = (Return "he",
     log_event
       (EvRequest (mkRequest "GET" "http://localhost:8888//files/hello.txt?token=c0ffee42"
                     [("Range", "bytes=0-1")] []))
       (Demo.world Demo.fs)).
Proof. by vm_compute. Qed.

(** C8, witness: the second demo run changes nothing, although the first
    one wrote seven files. *)
Lemma run_twice_witness :
  length (written_of (w_log (snd (@run Demo.env Demo.fs)))) = 7%nat
  /\ w_fs (snd (@run Demo.env (w_fs (snd (@run Demo.env Demo.fs)))))
     = w_fs (snd (@run Demo.env Demo.fs)).
Proof. split; [by vm_compute|]. apply (@run_twice Demo.env). Defined.

(** C9, witness: started in the directory of the scripts, the probe script
    loads what the bootstrap wrote; started elsewhere, it finds no file. *)
Lemma secret_round_trip_witness :
  (forall w',
     @start_jupyterlab.write_secret Demo.env "c0ffee42" (Demo.world Demo.fs_fresh)
     = (Return tt, w') ->
     @token Demo.env w' = (Return "c0ffee42", w'))
  /\ fst (@start_jupyterlab.write_secret Demo.env "c0ffee42" (Demo.world Demo.fs_fresh))
     = Return tt
  /\ fst (@token Demo.env_elsewhere
            (snd (@start_jupyterlab.write_secret Demo.env_elsewhere "c0ffee42"
                    (Demo.world Demo.fs_fresh))))
     = Raise (FileNotFoundError ["home"; "user"; ".secret"]).
Proof.
  destruct (@secret_round_trip Demo.env) as (_ & _ & Hiff).
  split; [|split; by vm_compute].
  intros w'. apply (proj2 Hiff eq_refl); [by vm_compute|].
  intros m d H. by vm_compute in H.
Defined.

(** C10, counterexample: the URL of the byte-range request has the double
    slash too. *)
Lemma byte_range_url_double_slash :
  (fun r => (req_url r, req_headers r, double_slash (req_url r)))
    <$> requests_of (w_log (snd (@run Demo.env Demo.fs))) !! 10%nat
  = Some ("http://localhost:8888//files/hello.txt?token=c0ffee42",
          [("Range", "bytes=0-1")], true)
  /\ url_path "http://localhost:8888//files/hello.txt?token=c0ffee42"
     = "//files/hello.txt?token=c0ffee42".
Proof. split; by vm_compute. Qed.

(** C10, witness: the last and the first request of the demo run. *)
Lemma double_slash_requests_witness :
  double_slash "http://localhost:8888//files/hello.txt?token=c0ffee42" = true
  /\ double_slash "http://localhost:8888/?token=c0ffee42" = false.
Proof.
  split.
  - apply (@double_slash_requests Demo.env Demo.fs Demo.secret_text 10
             (mkRequest "GET" "http://localhost:8888//files/hello.txt?token=c0ffee42"
                [("Range", "bytes=0-1")] [])); by vm_compute.
  - apply (@double_slash_requests Demo.env Demo.fs Demo.secret_text 0
             (mkRequest "GET" "http://localhost:8888/?token=c0ffee42" [] [])); by vm_compute.
Defined.

End demo.

(** * Further properties of the scripts *)

(** ** Stripping *)

Lemma lstrip_all_space (s : string) : all_space s = true -> lstrip s = EmptyString.
Proof.
  induction s as [|c r IH]; simpl; [done|].
  intros [Hc Hr]%andb_prop. rewrite Hc. by apply IH.
Qed.

Lemma rstrip_all_space (s : string) : all_space s = true -> rstrip s = EmptyString.
Proof.
  induction s as [|c r IH]; simpl; [done|].
  intros [Hc Hr]%andb_prop. by rewrite (IH Hr), Hc.
Qed.

Lemma lstrip_app_space (pre s : string) :
  all_space pre = true -> lstrip (pre +:+ s) = lstrip s.
Proof.
  induction pre as [|c r IH]; [done|].
  intros [Hc Hr]%andb_prop. change (String c r +:+ s) with (String c (r +:+ s)).
  simpl. rewrite Hc. by apply IH.
Qed.

Lemma rstrip_app_space (s post : string) :
  all_space post = true -> rstrip (s +:+ post) = rstrip s.
Proof.
  intros Hp. induction s as [|c r IH].
  - by apply rstrip_all_space.
  - change (String c r +:+ post) with (String c (r +:+ post)).
    simpl. by rewrite IH.
Qed.

(** Whitespace after the text does not change what [lstrip] removes. *)
Lemma lstrip_app (s post : string) :
  all_space post = true ->
  lstrip (s +:+ post) = lstrip s +:+ post \/ (lstrip s = EmptyString /\ lstrip (s +:+ post) = EmptyString).
Proof.
  intros Hp. induction s as [|c r IH].
  - right. split; [done|]. by apply lstrip_all_space.
  - change (String c r +:+ post) with (String c (r +:+ post)). simpl.
    destruct (isspace c); [exact IH|]. by left.
Qed.

Lemma strip_padding (pre s post : string) :
  all_space pre = true -> all_space post = true ->
  strip (pre +:+ s +:+ post) = strip s.
Proof.
  intros Hpre Hpost. unfold strip. rewrite (lstrip_app_space _ _ Hpre).
  destruct (lstrip_app s post Hpost) as [->|[-> ->]]; [|done].
  by apply rstrip_app_space.
Qed.

Lemma first_char_lstrip (s : string) (c : ascii) :
  first_char (lstrip s) = Some c -> isspace c = false.
Proof.
  induction s as [|a r IH]; simpl; [done|].
  destruct (isspace a) eqn:Ha; [exact IH|].
  simpl. intros H. by inversion H; subst.
Qed.

Lemma last_char_rstrip (s : string) (c : ascii) :
  last_char (rstrip s) = Some c -> isspace c = false.
Proof.
  induction s as [|a r IH]; simpl; [done|].
  destruct (rstrip r) as [|b r'] eqn:Hr.
  - destruct (isspace a) eqn:Ha; simpl; [done|]. intros H. by inversion H; subst.
  - intros H. apply IH. exact H.
Qed.

(** [rstrip] removes characters at the end only. *)
Lemma first_char_rstrip (s : string) (c : ascii) :
  first_char (rstrip s) = Some c -> first_char s = Some c.
Proof.
  destruct s as [|a r]; simpl; [done|].
  destruct (rstrip r); [|done].
  by destruct (isspace a).
Qed.

Lemma strip_trimmed (s : string) :
  (forall c, first_char (strip s) = Some c -> isspace c = false)
  /\ (forall c, last_char (strip s) = Some c -> isspace c = false).
Proof.
  unfold strip. split; intros c H.
  - apply first_char_rstrip in H. by apply (first_char_lstrip s).
  - by apply (last_char_rstrip (lstrip s)).
Qed.

(** ** Names of sample files *)

Lemma append_empty (s : string) : s +:+ EmptyString = s.
Proof.
  induction s as [|c r IH]; [done|].
  change (String c r +:+ EmptyString) with (String c (r +:+ EmptyString)). by rewrite IH.
Qed.

Lemma append_length (s t : string) :
  String.length (s +:+ t) = (String.length s + String.length t)%nat.
Proof.
  induction s as [|c r IH]; [done|].
  change (String c r +:+ t) with (String c (r +:+ t)). simpl. by rewrite IH.
Qed.

(** A suffix can be cancelled. *)
Lemma append_inj_suffix (a b c : string) : a +:+ c = b +:+ c -> a = b.
Proof.
  revert b. induction a as [|x a IH]; intros [|y b] H.
  - done.
  - apply (f_equal String.length) in H. rewrite !append_length in H. simpl in H. lia.
  - apply (f_equal String.length) in H. rewrite !append_length in H. simpl in H. lia.
  - change (String x (a +:+ c) = String y (b +:+ c)) in H.
    injection H as -> H. by rewrite (IH b H).
Qed.

Lemma split_on_cons (c : ascii) (s : string) :
  exists h r, split_on c s = h :: r.
Proof.
  induction s as [|a s IH]; simpl; [by eexists _, _|].
  destruct (Ascii.eqb a c); [by eexists _, _|].
  destruct IH as (h & r & ->). by eexists _, _.
Qed.

(** A name without a slash is the front of the first piece. *)
Lemma split_on_no_slash (s t : string) (h : string) (r : list string) :
  no_slash s = true ->
  split_on "/" t = h :: r ->
  split_on "/" (s +:+ t) = (s +:+ h) :: r.
Proof.
  intros Hs Ht. induction s as [|c s IH].
  - exact Ht.
  - simpl in Hs. apply andb_prop in Hs as [Hc Hs].
    change (String c s +:+ t) with (String c (s +:+ t)). simpl.
    apply negb_true_iff in Hc. by rewrite Hc, (IH Hs).
Qed.

Lemma names_of_plain (s : string) : plain_name s = true -> names_of s = [s].
Proof.
  unfold plain_name. intros [[Hs He]%andb_prop Hd]%andb_prop.
  unfold names_of. rewrite <- (append_empty s) at 1.
  rewrite (split_on_no_slash s EmptyString EmptyString [] Hs eq_refl).
  simpl. rewrite append_empty.
  by rewrite (proj1 (negb_true_iff _) He), (proj1 (negb_true_iff _) Hd).
Qed.

Lemma Path_plain (s : string) : plain_name s = true -> Path s = Rel [s].
Proof.
  intros H. unfold Path. rewrite (names_of_plain s H).
  unfold plain_name in H. apply andb_prop in H as [[Hs He]%andb_prop _].
  destruct s as [|c r]; [done|]. cbn [no_slash] in Hs.
  apply andb_prop in Hs as [Hc _]. apply negb_true_iff in Hc.
  cbn [startswith]. by rewrite Ascii.eqb_sym, Hc.
Qed.

Lemma names_of_json (s : string) :
  plain_name s = true -> names_of (s +:+ ".json") = [s +:+ ".json"].
Proof.
  unfold plain_name. intros [[Hs He]%andb_prop Hd]%andb_prop.
  unfold names_of. rewrite (split_on_no_slash s ".json" ".json" [] Hs eq_refl).
  simpl.
  assert (Hlen : (5 <= String.length (s +:+ ".json"))%nat)
    by (rewrite append_length; simpl; lia).
  destruct (String.eqb_spec (s +:+ ".json") EmptyString) as [Heq|_];
    [rewrite Heq in Hlen; simpl in Hlen; lia|].
  destruct (String.eqb_spec (s +:+ ".json") ".") as [Heq|_];
    [rewrite Heq in Hlen; simpl in Hlen; lia|].
  done.
Qed.

Section more_try_save.
Context {E : Env}.
Import test_py.

(** The sample file of a label that is one path component is that label
    with the extension [.json], directly in [samples]; different labels have
    different files.  The empty label and the label [.] are no components:
    both name the file [..json]. *)
Theorem sample_file_plain :
  (forall label, plain_name label = true ->
     sample_file (Path label) = script_dir ++ ["samples"; label +:+ ".json"])
  /\ (forall a b, plain_name a = true -> plain_name b = true ->
        sample_file (Path a) = sample_file (Path b) -> a = b)
  /\ sample_file (Path EmptyString) = script_dir ++ ["samples"; "..json"]
  /\ sample_file (Path ".") = script_dir ++ ["samples"; "..json"].
Proof.
  assert (Hname : forall label, plain_name label = true ->
            sample_file (Path label) = script_dir ++ ["samples"; label +:+ ".json"]).
  { intros label H. rewrite sample_file_names, (Path_plain label H).
    cbn [Path_str join].
    change (names_of ("samples/" +:+ label +:+ ".json"))
      with ("samples" :: names_of (label +:+ ".json")).
    by rewrite (names_of_json label H). }
  split; [exact Hname|]. split; [|by split].
  intros a b Ha Hb. rewrite (Hname a Ha), (Hname b Hb).
  intros H. apply app_inv_head in H. injection H as H.
  by apply append_inj_suffix in H.
Qed.



End more_try_save.

Section more_token.
Context {E : Env}.
Import test_py.

(** Whitespace around the token in the credential file does not matter:
    the file that holds [s] between two runs of whitespace gives the token
    that the file holding [s] alone gives. *)
Theorem token_ignores_padding (w : World) (m : mode) (pre s post : string) :
  w_fs w !! secret_file = Some (File m (pre +:+ s +:+ post)) ->
  m_read m = true ->
  all_space pre = true -> all_space post = true ->
  token w = (Return (strip s), w).
Proof.
  intros Hf Hm Hpre Hpost. rewrite token_cases. unfold open_r_check.
  by rewrite Hf, Hm, (strip_padding _ _ _ Hpre Hpost).
Qed.

(** The token that the loader returns never starts or ends with a
    whitespace character, and loading changes nothing. *)
Theorem token_trimmed (w w' : World) (t : string) :
  token w = (Return t, w') ->
  w' = w
  /\ (forall c, first_char t = Some c -> isspace c = false)
  /\ (forall c, last_char t = Some c -> isspace c = false).
Proof.
  rewrite token_cases.
  destruct (open_r_check (w_fs w) secret_file) as [e|s]; [done|].
  intros H. injection H as <- <-. split; [done|]. apply strip_trimmed.
Qed.

(** No validation: a credential file that is empty or holds only whitespace
    gives the empty token, and the run goes on to ask for the root page
    with it. *)
Theorem blank_token (fs : gmap Location node) (m : mode) (c : string) :
  fs !! secret_file = Some (File m c) ->
  m_read m = true ->
  all_space c = true ->
  token (mkWorld fs [] []) = (Return EmptyString, mkWorld fs [] [])
  /\ exists r, requests_of (w_log (snd (run fs))) !! 0%nat = Some r
               /\ req_url r = "http://localhost:8888/?token=".
Proof.
  intros Hf Hm Hc.
  assert (Ho : open_r_check fs secret_file = inr c).
  { unfold open_r_check. by rewrite Hf, Hm. }
  assert (Hs : strip c = EmptyString).
  { unfold strip. by rewrite (lstrip_all_space c Hc). }
  split; [rewrite token_cases; cbn [w_fs]; by rewrite Ho, Hs|].
  unfold run. rewrite main_cases. cbn [w_fs]. rewrite Ho, Hs.
  unfold bind at 1. rewrite client_cases.
  set (r0 := mkRequest "GET" (lab_url +:+ "?token=" +:+ EmptyString) [] []).
  exists r0. split; [|done].
  destruct (server _ r0) as [resp0|]; [|done].
  set (w1 := set_jar _ _).
  destruct (loop_effect probes w1) as (evs & Hlog & _).
  unfold bind, persistence_loop.
  destruct (for_ probes _ w1) as [[[]|e] w2]; cbn [fst snd] in *.
  - rewrite byte_range_probe_cases.
    destruct (server _ _); cbn [snd log_event w_log]; by rewrite Hlog.
  - by rewrite Hlog.
Qed.

End more_token.

Section more_loop.
Context {E : Env}.
Import test_py.

Lemma printed_of_app (l1 l2 : list event) :
  printed_of (l1 ++ l2) = printed_of l1 ++ printed_of l2.
Proof. apply omap_app. Qed.

(** A probe that returns leaves one line or one file after its request; a
    probe that raises leaves its request only. *)
Lemma probe_trace (route label : string) (w : World) :
  exists evs,
    w_log (snd (probe route label w)) = w_log w ++ evs
    /\ length (requests_of evs) = 1%nat
    /\ (length (printed_of evs) + length (written_of evs))%nat
       = match fst (probe route label w) with Return _ => 1%nat | Raise _ => 0%nat end.
Proof.
  rewrite probe_cases.
  destruct (server _ _) as [resp|]; [|by eexists [_]].
  set (r := mkRequest _ _ _ _). set (w1 := set_jar _ _).
  assert (Hw1 : w_log w1 = w_log w ++ [EvRequest r]) by done.
  destruct (decide (status_code resp = 200)) as [Hs|Hs].
  - destruct (json_loads (text resp)) as [data|msg] eqn:Hj.
    + destruct (open_w_check (w_fs w1) (sample_file (Path label))) as [e|m] eqn:Ho.
      * rewrite (try_save_open_error _ _ _ _ _ Hs Hj Ho). by exists [EvRequest r].
      * rewrite (try_save_saved _ _ _ _ _ Hs Hj Ho).
        exists [EvRequest r; EvWrite (sample_file (Path label)) (json_dumps data 2)].
        cbn [fst snd log_event set_fs w_log]. rewrite Hw1, <- app_assoc. by cbn.
    + rewrite (try_save_decode_error _ _ _ _ Hs Hj).
      exists [EvRequest r; EvPrint ("JSON decode error: " +:+ msg)].
      cbn [fst snd log_event w_log]. rewrite Hw1, <- app_assoc. by cbn.
  - rewrite (try_save_status _ _ _ Hs).
    exists [EvRequest r; EvPrint ("Error: " +:+ str_of_int (status_code resp))].
    cbn [fst snd log_event w_log]. rewrite Hw1, <- app_assoc. by cbn.
Qed.

Lemma loop_trace (ps : list (string * string)) (w : World) :
  exists evs,
    w_log (snd (for_ ps (fun p => probe (fst p) (snd p)) w)) = w_log w ++ evs
    /\ (length (requests_of evs) <= length ps)%nat
    /\ (length (printed_of evs) + length (written_of evs)
        + match fst (for_ ps (fun p => probe (fst p) (snd p)) w) with
          | Return _ => 0 | Raise _ => 1 end)%nat
       = length (requests_of evs)
    /\ (fst (for_ ps (fun p => probe (fst p) (snd p)) w) = Return tt ->
        length (requests_of evs) = length ps).
Proof.
  revert w. induction ps as [|[route label] ps IH]; intros w.
  - exists []. cbn. by rewrite app_nil_r.
  - rewrite for_cons. cbn [fst snd].
    destruct (probe_trace route label w) as (evs1 & Hlog1 & Hreq1 & Hcount1).
    destruct (probe route label w) as [[[]|e] w1]; cbn [fst snd] in *.
    + destruct (IH w1) as (evs2 & Hlog2 & Hle2 & Hcount2 & Hall2).
      exists (evs1 ++ evs2).
      rewrite requests_of_app, printed_of_app, written_of_app, !length_app.
      cbn [length].
      split; [by rewrite Hlog2, Hlog1, app_assoc|].
      split; [lia|]. split; [lia|]. intros H. rewrite (Hall2 H). lia.
    + exists evs1. cbn [length]. split; [done|]. split; [lia|]. split; [lia|done].
Qed.

(** A run, case by case. *)
Lemma run_cases (fs : gmap Location node) :
  run fs
  = match open_r_check fs secret_file with
    | inl e => (Raise e, mkWorld fs [] [])
    | inr s =>
        let r0 := mkRequest "GET" (lab_url +:+ "?token=" +:+ strip s) [] [] in
        match server [] r0 with
        | None => (Raise (ConnectionError (req_url r0)), mkWorld fs [] [EvRequest r0])
        | Some resp0 =>
            match for_ probes (fun p => probe (fst p) (snd p))
                    (mkWorld fs (jar_update [] (cookies resp0)) [EvRequest r0]) with
            | (Return _, w2) => byte_range_probe (strip s) w2
            | (Raise e, w2) => (Raise e, w2)
            end
        end
    end.
Proof.
  unfold run. rewrite main_cases. cbn [w_fs].
  destruct (open_r_check fs secret_file) as [e|s]; [done|].
  unfold bind at 1. rewrite client_cases. cbn [w_log].
  change (requests_of []) with (@nil Request).
  cbv zeta. destruct (server [] _) as [resp0|]; [|reflexivity].
  unfold bind, persistence_loop.
  change (set_jar _ _) with (mkWorld fs (jar_update [] (cookies resp0))
    [EvRequest (mkRequest "GET" (lab_url +:+ "?token=" +:+ strip s) [] [])]).
  by destruct (for_ probes _ _) as [[[]|e] w2].
Qed.

(** Every probe that the script completes leaves exactly one trace, a
    printed line or a written file: a run leaves at most nine, and exactly
    nine when it returns. *)
Theorem one_trace_per_probe (fs : gmap Location node) :
  let log := w_log (snd (run fs)) in
  (length (printed_of log) + length (written_of log) <= 9)%nat
  /\ (forall body, fst (run fs) = Return body ->
      (length (printed_of log) + length (written_of log))%nat = 9%nat).
Proof.
  intros log. subst log. rewrite run_cases.
  destruct (open_r_check fs secret_file) as [e|s]; [cbn; split; [lia|done]|].
  cbv zeta. destruct (server [] _) as [resp0|]; [|cbn; split; [lia|done]].
  set (w1 := mkWorld _ _ _).
  destruct (loop_trace probes w1) as (evs & Hlog & Hle & Hcount & Hall).
  change (length probes) with 9%nat in *.
  destruct (for_ probes _ w1) as [[[]|e] w2]; cbn [fst snd] in *.
  - specialize (Hall eq_refl).
    rewrite byte_range_probe_cases.
    assert (Hp : forall r, printed_of (w_log (log_event (EvRequest r) w2)) = printed_of evs).
    { intros r. cbn [log_event w_log]. rewrite Hlog, !printed_of_app.
      cbn. by rewrite app_nil_r. }
    assert (Hw : forall r, written_of (w_log (log_event (EvRequest r) w2)) = written_of evs).
    { intros r. cbn [log_event w_log]. rewrite Hlog, !written_of_app.
      cbn. by rewrite app_nil_r. }
    destruct (server _ _); cbn [fst snd]; rewrite Hp, Hw; split; try lia; done.
  - assert (Hp1 : printed_of (w_log w1) = []) by done.
    assert (Hw1 : written_of (w_log w1) = []) by done.
    rewrite Hlog, printed_of_app, written_of_app, Hp1, Hw1. cbn [app].
    split; [lia|done].
Qed.

End more_loop.

Section more_run.
Context {E : Env}.
Import test_py.

Lemma kept_or_written_trans (fs1 fs2 fs3 : gmap Location node) (l : Location) :
  kept_or_written fs1 fs2 l -> kept_or_written fs2 fs3 l -> kept_or_written fs1 fs3 l.
Proof.
  unfold kept_or_written.
  intros H12 [H23|(m & d & H3 & H2)]; [by rewrite H23|].
  destruct H12 as [H12|(m' & d' & H2' & H1)].
  - right. exists m, d. by rewrite <- H12.
  - right. exists m, d. split; [done|].
    destruct H2 as [H2|[d0 H2]]; [congruence|].
    rewrite H2 in H2'. by injection H2' as <- _.
Qed.

Lemma probe_fs (route label : string) (w : World) (l : Location) :
  kept_or_written (w_fs w) (w_fs (snd (probe route label w))) l.
Proof.
  destruct (probe_effect route label w) as (_ & _ & _ & [[_ ->]|(m & d & _ & _ & Ho & ->)]).
  - by left.
  - destruct (decide (l = sample_file (Path label))) as [->|Hne].
    + right. exists m, d. rewrite lookup_insert_eq. split; [done|].
      destruct (open_w_check_mode _ _ _ Ho) as [[d0 Hd]|[Hn _]]; eauto.
    + left. by rewrite lookup_insert_ne.
Qed.

Lemma loop_fs (ps : list (string * string)) (w : World) (l : Location) :
  kept_or_written (w_fs w) (w_fs (snd (for_ ps (fun p => probe (fst p) (snd p)) w))) l.
Proof.
  revert w. induction ps as [|[route label] ps IH]; intros w; [by left|].
  rewrite for_cons. cbn [fst snd].
  pose proof (probe_fs route label w l) as H1.
  destruct (probe route label w) as [[[]|e] w1]; cbn [snd] in *; [|done].
  by apply (kept_or_written_trans _ (w_fs w1)).
Qed.

Lemma main_kept_or_written (w : World) (l : Location) :
  kept_or_written (w_fs w) (w_fs (snd (main w))) l.
Proof.
  rewrite main_fs.
  destruct (open_r_check (w_fs w) secret_file) as [e|s]; [by left|].
  pose proof (client_fs (strip s) w) as Hc.
  destruct (client (strip s) w) as [[[]|e] w1]; cbn [snd] in *; [|by left].
  rewrite <- Hc. apply loop_fs.
Qed.

(** The script writes sample files and nothing else: every other location,
    the credential file among them, is as before the run; nothing is
    deleted, no directory is created, and a file that existed keeps its
    mode.  This holds for every outcome of the run. *)
Theorem main_writes_samples_only (w : World) :
  let fs' := w_fs (snd (main w)) in
  (forall l, l ∉ (fun p => sample_file (Path (snd p))) <$> probes ->
     fs' !! l = w_fs w !! l)
  /\ fs' !! secret_file = w_fs w !! secret_file
  /\ (forall l, is_Some (w_fs w !! l) -> is_Some (fs' !! l))
  /\ (forall l b, fs' !! l = Some (Dir b) <-> w_fs w !! l = Some (Dir b))
  /\ (forall l m d, w_fs w !! l = Some (File m d) -> exists d', fs' !! l = Some (File m d')).
Proof.
  intros fs'. subst fs'.
  split; [intros l; apply main_frame|].
  split; [apply main_frame, secret_file_not_sample|].
  split; [|split].
  - intros l [n Hn].
    destruct (main_kept_or_written w l) as [->|(m & d & -> & _)]; eauto.
  - intros l b.
    destruct (main_kept_or_written w l) as [->|(m & d & H' & [H|[d0 H]])]; [done|..];
      rewrite H', H; split; discriminate.
  - intros l m d Hl.
    destruct (main_kept_or_written w l) as [->|(m' & d' & H' & [H|[d0 H]])]; eauto.
    + congruence.
    + rewrite Hl in H. injection H as <- _. eauto.
Qed.




End more_run.

Section more_session.
Context {E : Env}.
Import test_py.





End more_session.

(** ** The bootstrap and the probe script together *)

Section more_bootstrap.
Context {E : Env}.
Import test_py.

(** Lines 10-11 of the bootstrap, case by case. *)
Lemma write_secret_cases (tok : string) (w : World) :
  start_jupyterlab.write_secret tok w
  = match open_w_check (w_fs w) (script_dir ++ [".secret"]) with
    | inl e => (Raise e, w)
    | inr m =>
        (Return tt,
         log_event (EvWrite (script_dir ++ [".secret"]) tok)
           (set_fs (<[script_dir ++ [".secret"] := File m tok]> (w_fs w)) w))
    end.
Proof.
  unfold start_jupyterlab.write_secret.
  destruct (open_w_check (w_fs w) (script_dir ++ [".secret"])) as [e|m] eqn:Ho.
  - by apply write_text_error.
  - by rewrite (write_text_ok _ _ _ _ m) by exact Ho.
Qed.

(** Starting the server again replaces the token.  When a first start has
    written its token, a second start succeeds as well, whatever the two
    tokens are; the file then holds exactly the second token, with nothing
    left of the first (the file is truncated when it is opened), under the
    mode it had; and the file system is the one that the second start alone
    would have produced. *)
Theorem write_secret_overwrites (tok1 tok2 : string) (w w1 : World) :
  start_jupyterlab.write_secret tok1 w = (Return tt, w1) ->
  exists m w2,
    start_jupyterlab.write_secret tok2 w1 = (Return tt, w2)
    /\ w_fs w1 !! (script_dir ++ [".secret"]) = Some (File m tok1)
    /\ w_fs w2 !! (script_dir ++ [".secret"]) = Some (File m tok2)
    /\ w_fs w2 = w_fs (snd (start_jupyterlab.write_secret tok2 w))
    /\ (forall l, l <> script_dir ++ [".secret"] -> w_fs w2 !! l = w_fs w !! l)
    /\ w_log w2
       = w_log w ++ [EvWrite (script_dir ++ [".secret"]) tok1;
                     EvWrite (script_dir ++ [".secret"]) tok2].
Proof.
  intros H1. rewrite write_secret_cases in H1. rewrite (write_secret_cases tok2 w).
  destruct (open_w_check (w_fs w) (script_dir ++ [".secret"])) as [e|m] eqn:Ho; [done|].
  injection H1 as <-. exists m. eexists.
  split.
  { rewrite write_secret_cases. cbn [log_event set_fs w_fs].
    pose proof (open_w_check_again _ _ _ tok1 Ho) as Ha.
    unfold Location in *. by rewrite Ha. }
  cbn [log_event set_fs w_fs w_log snd].
  split; [by rewrite lookup_insert_eq|].
  split; [by rewrite lookup_insert_eq|].
  split; [by rewrite insert_insert_eq|].
  split; [|by rewrite <- app_assoc].
  intros l Hl. by rewrite !lookup_insert_ne.
Qed.


End more_bootstrap.

(** ** The further properties on the demo checkout *)

Section more_demo.
Import test_py.

(** The credential file with blanks before the token and a line break
    after it gives the token alone. *)
Lemma token_ignores_padding_witness :
  let w := Demo.world
             (<[Demo.dir ++ [".secret"]
                := File default_mode ("  " +:+ "c0ffee42" +:+ Json.newline)]> Demo.fs) in
  all_space "  " = true /\ all_space Json.newline = true
  /\ @token Demo.env w = (Return "c0ffee42", w).
Proof.
  intros w. split; [by vm_compute|]. split; [by vm_compute|].
  change (@token Demo.env w = (Return (strip "c0ffee42"), w)).
  apply (@token_ignores_padding Demo.env w default_mode "  " "c0ffee42" Json.newline);
    by vm_compute.
Defined.

(** The token of the demo checkout, whose file ends with a line break. *)
Lemma token_trimmed_witness :
  @token Demo.env (Demo.world Demo.fs) = (Return "c0ffee42", Demo.world Demo.fs)
  /\ (forall c, first_char "c0ffee42" = Some c -> isspace c = false)
  /\ (forall c, last_char "c0ffee42" = Some c -> isspace c = false).
Proof.
  assert (H : @token Demo.env (Demo.world Demo.fs)
              = (Return "c0ffee42", Demo.world Demo.fs)) by (by vm_compute).
  split; [exact H|].
  exact (proj2 (@token_trimmed Demo.env _ _ _ H)).
Defined.

(** A credential file that holds a blank and a line break. *)
Lemma blank_token_witness :
  let fs := <[Demo.dir ++ [".secret"] := File default_mode (" " +:+ Json.newline)]>
              Demo.fs_fresh in
  all_space (" " +:+ Json.newline) = true
  /\ @token Demo.env (Demo.world fs) = (Return EmptyString, Demo.world fs)
  /\ exists r, requests_of (w_log (snd (@run Demo.env fs))) !! 0%nat = Some r
               /\ req_url r = "http://localhost:8888/?token=".
Proof.
  intros fs. split; [by vm_compute|].
  apply (@blank_token Demo.env fs default_mode (" " +:+ Json.newline)); by vm_compute.
Defined.



(** Two starts of the server in a fresh checkout. *)
Lemma write_secret_overwrites_witness :
  let w := Demo.world Demo.fs_fresh in
  let w1 := snd (@start_jupyterlab.write_secret Demo.env "c0ffee42-long-token" w) in
  @start_jupyterlab.write_secret Demo.env "c0ffee42-long-token" w = (Return tt, w1)
  /\ exists m w2,
       @start_jupyterlab.write_secret Demo.env "beef" w1 = (Return tt, w2)
       /\ w_fs w1 !! (Demo.dir ++ [".secret"]) = Some (File m "c0ffee42-long-token")
       /\ w_fs w2 !! (Demo.dir ++ [".secret"]) = Some (File m "beef").
Proof.
  intros w w1.
  assert (H : @start_jupyterlab.write_secret Demo.env "c0ffee42-long-token" w
              = (Return tt, w1)) by (by vm_compute).
  split; [exact H|].
  destruct (@write_secret_overwrites Demo.env "c0ffee42-long-token" "beef" w w1 H)
    as (m & w2 & H2 & Hf1 & Hf2 & _).
  by exists m, w2.
Defined.


End more_demo.
